(** * quota-frontend: the quota-plan request/response lifecycle

    A shallow embedding of the TypeScript sources

    - [src/lib/api.ts]          (module [Api]:  [getApiBase], [postJson]);
    - [src/unnamed/part_000]    (module [Part000]: the page with [prettyDim]);
    - [src/unnamed/part_001]    (module [Part001]: the page with [prettyKey]);
    - [src/unnamed/part_002]    (module [Part002]: the page that shows raw keys);

    the three pages share [payload], [toggleDim] and [calculate] verbatim
    (module [Page]) and differ in [downloadExcel] only.  Module [View] holds
    the conditions under which the pages show things, module [Session] runs
    form events and invocations one after the other.

    Conventions.
    - A JavaScript string is the list of its UTF-16 code units ([jsstring]).
    - A JavaScript [number] is an IEEE-754 binary64 value ([float]).
    - A thrown [Error] is the left summand of a sum; [fetch] calls are logged.
    - React state: an event handler reads the values of the render that
      created it (its closure) and enqueues state updates, which are applied
      to the stored state, in order, before the next render. *)

From Stdlib Require Import ZArith NArith QArith Qabs Floats.
From Stdlib Require Import List String Ascii Bool Lia Permutation.
Import ListNotations.
Close Scope Q_scope.
Set Warnings "-inexact-float".

Set Implicit Arguments.

(* ================================================================= *)
(** ** JavaScript strings *)

Definition code_unit := N.
Definition jsstring := list code_unit.

(** A string literal of the source, as code units. *)
Definition lit (s : string) : jsstring := map N_of_ascii (list_ascii_of_string s).

Definition code_unit_eqb : code_unit -> code_unit -> bool := N.eqb.

Fixpoint jsstring_eqb (a b : jsstring) : bool :=
  match a, b with
  | [], [] => true
  | x :: a', y :: b' => code_unit_eqb x y && jsstring_eqb a' b'
  | _, _ => false
  end.

Definition jsstring_eq_dec : forall a b : jsstring, {a = b} + {a <> b} :=
  list_eq_dec N.eq_dec.

(** [!s] for a string [s]: only the empty string is falsy. *)
Definition falsy (s : jsstring) : bool :=
  match s with [] => true | _ :: _ => false end.

(** [s.slice(0, n)]. *)
Definition slice0 (n : nat) (s : jsstring) : jsstring := firstn n s.

(** ECMAScript WhiteSpace and LineTerminator code points, all of them in the
    basic plane: what [String.prototype.trim] strips. *)
Definition isTrimmable (c : code_unit) : bool :=
  existsb (N.eqb c)
    [ 9; 10; 11; 12; 13; 32; 160; 5760;
      8192; 8193; 8194; 8195; 8196; 8197; 8198; 8199; 8200; 8201; 8202;
      8232; 8233; 8239; 8287; 12288; 65279 ]%N.

Fixpoint trimStart (s : jsstring) : jsstring :=
  match s with
  | c :: s' => if isTrimmable c then trimStart s' else s
  | [] => []
  end.

Definition trim (s : jsstring) : jsstring := rev (trimStart (rev (trimStart s))).

(** [String(n)] for a non-negative integer: its decimal digits. *)
Fixpoint uint_units (d : Decimal.uint) : jsstring :=
  match d with
  | Decimal.Nil => []
  | Decimal.D0 d' => 48%N :: uint_units d'
  | Decimal.D1 d' => 49%N :: uint_units d'
  | Decimal.D2 d' => 50%N :: uint_units d'
  | Decimal.D3 d' => 51%N :: uint_units d'
  | Decimal.D4 d' => 52%N :: uint_units d'
  | Decimal.D5 d' => 53%N :: uint_units d'
  | Decimal.D6 d' => 54%N :: uint_units d'
  | Decimal.D7 d' => 55%N :: uint_units d'
  | Decimal.D8 d' => 56%N :: uint_units d'
  | Decimal.D9 d' => 57%N :: uint_units d'
  end.

Definition String_of_N (n : N) : jsstring := uint_units (N.to_uint n).

Definition isDigit (c : code_unit) : bool := (48 <=? c)%N && (c <=? 57)%N.

(* ================================================================= *)
(** ** Thrown errors and logged requests *)

Record Error := mkError { message : jsstring }.

Record Request := mkRequest {
  url : jsstring;
  method : jsstring;
  headers : list (jsstring * jsstring);
  body : jsstring
}.

Record Response := mkResponse {
  status : N;
  text : jsstring       (* what [await res.text()] yields *)
}.

(** [res.ok]: the status is in the range 200-299. *)
Definition ok (res : Response) : bool :=
  (200 <=? status res)%N && (status res <=? 299)%N.

(** A computation that may issue requests and may throw: the requests issued
    so far, and the thrown error or the value. *)
Definition Eff (A : Type) : Type := list Request * (Error + A).

Definition ret {A} (a : A) : Eff A := ([], inr a).
Definition throw {A} (e : Error) : Eff A := ([], inl e).
Definition bind {A B} (m : Eff A) (k : A -> Eff B) : Eff B :=
  match m with
  | (log, inl e) => (log, inl e)
  | (log, inr a) => let (log', r) := k a in (log ++ log', r)
  end.

Declare Scope eff_scope.
Delimit Scope eff_scope with eff.
Notation "x <- m ;; k" := (bind m (fun x => k))
  (at level 61, m at next level, right associativity) : eff_scope.

Definition requests {A} (m : Eff A) : list Request := fst m.
Definition outcome {A} (m : Eff A) : Error + A := snd m.

(* ================================================================= *)
(** ** src/lib/api.ts *)

Module Api.

Definition missingBaseMessage : jsstring :=
  lit "Missing NEXT_PUBLIC_API_BASE. Set it in .env.local and in Vercel env vars.".
Definition emptyBodyMessage : jsstring :=
  lit "API returned empty response body.".
Definition statusMessage (res : Response) : jsstring :=
  lit "API " ++ String_of_N (status res) ++ lit ": " ++ slice0 500 (text res).
Definition nonJsonMessage (res : Response) : jsstring :=
  lit "API returned non-JSON: " ++ slice0 500 (text res).

(** [s.replace(/\/$/, empty)]: without the [m] flag [$] matches at the end of
    the input only, so one final slash is dropped, if there is one. *)
Fixpoint replaceTrailingSlash (s : jsstring) : jsstring :=
  match s with
  | [] => []
  | c :: s' =>
      match s' with
      | [] => if code_unit_eqb c 47%N then [] else [c]
      | _ :: _ => c :: replaceTrailingSlash s'
      end
  end.

Section WithEnvironment.

(** [process.env.NEXT_PUBLIC_API_BASE]; [None] is [undefined]. *)
Variable NEXT_PUBLIC_API_BASE : option jsstring.
(** The network, as seen by this invocation: a rejected [fetch] (or a
    rejected [res.text()]) is an error, otherwise status and body. *)
Variable fetch : Request -> Error + Response.
(** [JSON.stringify] on payloads and [JSON.parse] cast to the caller's
    [T]; [None] is a thrown [SyntaxError]. *)
Variable P T : Type.
Variable JSON_stringify : P -> jsstring.
Variable JSON_parse : jsstring -> option T.

Definition getApiBase : Error + jsstring :=
  match NEXT_PUBLIC_API_BASE with
  | None => inl (mkError missingBaseMessage)
  | Some base =>
      if falsy base then inl (mkError missingBaseMessage)
      else inr (replaceTrailingSlash base)
  end.

Definition call_fetch (req : Request) : Eff Response := ([req], fetch req).

Definition lift {A} (r : Error + A) : Eff A := ([], r).

Definition postJson (path : jsstring) (payload : P) : Eff T :=
  (base <- lift getApiBase ;;
   let url := base ++ path in
   res <- call_fetch
            (mkRequest url (lit "POST")
               [(lit "Content-Type", lit "application/json")]
               (JSON_stringify payload)) ;;
   if negb (ok res) then throw (mkError (statusMessage res))
   else if falsy (trim (text res)) then throw (mkError emptyBodyMessage)
   else match JSON_parse (text res) with
        | Some v => ret v
        | None => throw (mkError (nonJsonMessage res))
        end)%eff.

(** For the statements below (not in the source): the request [postJson]
    builds once the base is known, and how a settled [fetch] is sorted. *)
Definition requestTo (b path : jsstring) (payload : P) : Request :=
  mkRequest (b ++ path) (lit "POST")
    [(lit "Content-Type", lit "application/json")] (JSON_stringify payload).

Definition classify (r : Error + Response) : Error + T :=
  match r with
  | inl e => inl e
  | inr res =>
      if negb (ok res) then inl (mkError (statusMessage res))
      else if forallb isTrimmable (text res) then inl (mkError emptyBodyMessage)
      else match JSON_parse (text res) with
           | Some v => inr v
           | None => inl (mkError (nonJsonMessage res))
           end
  end.

End WithEnvironment.

End Api.

(* ================================================================= *)
(** ** JavaScript numbers: [Number(x.toFixed(2))] *)

Definition number := float.

(** The result of [x.toFixed(2)], by the cases of the language definition:
    ["NaN"]; the plain [String(x)] when [x] is infinite or [|x| >= 1e21]; and
    otherwise the numeral [-]n/100 written with two decimals, where [n] is the
    integer nearest to [100 * |x|], the larger one on a tie.  The sign is
    that of [x < 0], so [-0] prints as ["0.00"]. *)
Inductive Fixed :=
| FixedNaN
| FixedPlain (x : float)
| FixedDecimal (negative : bool) (hundredths : Z).

(** [floor (m * 2^e * 100 + 1/2)] for the exact value [m * 2^e] of a double. *)
Definition roundHundredths (m : positive) (e : Z) : Z :=
  if (0 <=? e)%Z then (100 * (Z.pos m * 2 ^ e))%Z
  else ((2 * (100 * Z.pos m) + 2 ^ (- e)) / (2 * 2 ^ (- e)))%Z.

Definition toFixed2 (x : float) : Fixed :=
  match Prim2SF x with
  | S754_nan => FixedNaN
  | S754_infinity _ => FixedPlain x
  | S754_zero _ => FixedDecimal false 0
  | S754_finite s m e =>
      if (1e21 <=? abs x)%float then FixedPlain x
      else FixedDecimal s (roundHundredths m e)
  end.

(** The double nearest to [n / 100] (ties to even), as [Number] reads a
    decimal numeral. *)
Definition nearestDouble (negative : bool) (n : Z) : float :=
  match n with
  | Zpos p =>
      SF2Prim (SFdiv prec emax (S754_finite negative p 0) (S754_finite false 100 0))
  | _ => if negative then (-0)%float else 0%float
  end.

(** [Number(s)] for a string [s] that [toFixed] produced.  [String(x)]
    reads back as [x]. *)
Definition Number_of_Fixed (f : Fixed) : float :=
  match f with
  | FixedNaN => nan
  | FixedPlain x => x
  | FixedDecimal s n => nearestDouble s n
  end.

(** The exact rational value of a double, when it has one: [m * 2^e],
    signed. *)
Definition finiteValue (m : positive) (e : Z) : Q :=
  if (0 <=? e)%Z then inject_Z (Z.pos m * 2 ^ e)
  else Qmake (Z.pos m) (Z.to_pos (2 ^ (- e))).

Definition Qvalue (x : float) : option Q :=
  match Prim2SF x with
  | S754_zero _ => Some 0%Q
  | S754_finite s m e => Some (if s then Qopp (finiteValue m e) else finiteValue m e)
  | _ => None
  end.

(** [n/100] is [q] rounded to two decimals: no numeral with two decimals
    is nearer to [q]. *)
Definition rounds_to_2dp (q : Q) (n : Z) : Prop :=
  (Qabs (q * 100 - inject_Z n) <= 1 # 2)%Q.

(** The same with ties resolved upwards: [n - 1/2 <= 100 q < n + 1/2]. *)
Definition rounds_half_up_to_2dp (q : Q) (n : Z) : Prop :=
  (inject_Z n - (1 # 2) <= q * 100)%Q /\ (q * 100 < inject_Z n + (1 # 2))%Q.

(* ================================================================= *)
(** ** The page: what part_000, part_001 and part_002 share *)

Module Page.

Record QuotaCell := mkCell {
  id : jsstring; label : jsstring; pop : number; share : number; quota : number
}.

Record DimensionResult := mkDimensionResult {
  base : number; cells : list QuotaCell; notes : option (list jsstring)
}.

(** [results] is a JavaScript object used as a map: its entries in the order
    [Object.entries] yields them.  [meta] is [any] in the source; only
    [meta.errors] is read. *)
Record QuotaResponse := mkQuotaResponse {
  population_total : number;
  response_sample_n : number;              (* [sample_n] of the response *)
  results : list (jsstring * DimensionResult);
  meta_errors : option (list (jsstring * jsstring))
}.

Inductive SexFilter := total | men | women.

Record Reference := mkReference { ref_year : number }.
Record AgeBand := mkAgeBand { from : number; to : number }.

Record Payload := mkPayload {
  reference : Reference;
  age_band : AgeBand;
  sample_n : number;
  age_grouping_years : number;
  dimensions : list jsstring;
  sex_filter : SexFilter
}.

(** The component's state: one field per [useState]. *)
Record State := mkState {
  year : number; ageFrom : number; ageTo : number; sampleN : number; step : number;
  sexFilter : SexFilter;
  dims : list jsstring;
  data : option QuotaResponse;
  err : option jsstring;
  loading : bool
}.

(** A queued state update; [setDims] is only ever called with a function of
    the previous value, the other setters with a value. *)
Definition Update := State -> State.

Definition setDims (f : list jsstring -> list jsstring) : Update := fun s =>
  mkState (year s) (ageFrom s) (ageTo s) (sampleN s) (step s) (sexFilter s)
    (f (dims s)) (data s) (err s) (loading s).
Definition setData (v : option QuotaResponse) : Update := fun s =>
  mkState (year s) (ageFrom s) (ageTo s) (sampleN s) (step s) (sexFilter s)
    (dims s) v (err s) (loading s).
Definition setErr (v : option jsstring) : Update := fun s =>
  mkState (year s) (ageFrom s) (ageTo s) (sampleN s) (step s) (sexFilter s)
    (dims s) (data s) v (loading s).
Definition setLoading (v : bool) : Update := fun s =>
  mkState (year s) (ageFrom s) (ageTo s) (sampleN s) (step s) (sexFilter s)
    (dims s) (data s) (err s) v.
Definition setYear (v : number) : Update := fun s =>
  mkState v (ageFrom s) (ageTo s) (sampleN s) (step s) (sexFilter s)
    (dims s) (data s) (err s) (loading s).
Definition setAgeFrom (v : number) : Update := fun s =>
  mkState (year s) v (ageTo s) (sampleN s) (step s) (sexFilter s)
    (dims s) (data s) (err s) (loading s).
Definition setAgeTo (v : number) : Update := fun s =>
  mkState (year s) (ageFrom s) v (sampleN s) (step s) (sexFilter s)
    (dims s) (data s) (err s) (loading s).
Definition setSampleN (v : number) : Update := fun s =>
  mkState (year s) (ageFrom s) (ageTo s) v (step s) (sexFilter s)
    (dims s) (data s) (err s) (loading s).
Definition setStep (v : number) : Update := fun s =>
  mkState (year s) (ageFrom s) (ageTo s) (sampleN s) v (sexFilter s)
    (dims s) (data s) (err s) (loading s).
Definition setSexFilter (v : SexFilter) : Update := fun s =>
  mkState (year s) (ageFrom s) (ageTo s) (sampleN s) (step s) v
    (dims s) (data s) (err s) (loading s).

(** The queued updates are applied in order to the stored state. *)
Definition flush (us : list Update) (s : State) : State :=
  fold_left (fun acc u => u acc) us s.

(** [arr.includes(d)] on an array of strings. *)
Definition includes (d : jsstring) (arr : list jsstring) : bool :=
  existsb (jsstring_eqb d) arr.

(** [payload]: memoised on every value it reads, so it is a function of the
    render's state. *)
Definition payload (render : State) : Payload :=
  mkPayload (mkReference (year render)) (mkAgeBand (ageFrom render) (ageTo render))
    (sampleN render) (step render) (dims render) (sexFilter render).

(** [(prev) => (prev.includes(d) ? prev.filter((x) => x !== d) : [...prev, d])]. *)
Definition toggle (d : jsstring) (prev : list jsstring) : list jsstring :=
  if includes d prev then filter (fun x => negb (jsstring_eqb x d)) prev
  else prev ++ [d].

Definition toggleDim (d : jsstring) : list Update := [setDims (toggle d)].

(** [(prev) => [...prev, "sex"]]. *)
Definition appendSex (prev : list jsstring) : list jsstring := prev ++ [lit "sex"].

Definition menOrWomen (f : SexFilter) : bool :=
  match f with men | women => true | total => false end.

Definition calculatePath : jsstring := lit "/v1/quotas/calculate".

Section Calculate.

Variable NEXT_PUBLIC_API_BASE : option jsstring.
Variable fetch : Request -> Error + Response.
Variable JSON_stringify : Payload -> jsstring.
Variable JSON_parse : jsstring -> option QuotaResponse.

(** [calculate], up to its [await]: the updates it enqueues, reading
    [sexFilter] and [dims] from the render that created the handler. *)
Definition calculate_enter (render : State) : list Update :=
  [setErr None; setData None; setLoading true]
  ++ (if menOrWomen (sexFilter render) && negb (includes (lit "sex") (dims render))
      then [setDims appendSex] else []).

(** The call it awaits: [payload] is the render's memoised value. *)
Definition calculate_call (render : State) : Eff QuotaResponse :=
  Api.postJson NEXT_PUBLIC_API_BASE fetch JSON_stringify JSON_parse
    calculatePath (payload render).

(** [calculate], after the [await]: [try] ends in [setData(js)], [catch] in
    [setErr(e.message)] (every thrown value is an [Error] with a string
    message, so the [String(e)] fallback is not reached), [finally] in
    [setLoading(false)]. *)
Definition calculate_settle (r : Error + QuotaResponse) : list Update :=
  match r with
  | inr js => [setData (Some js)]
  | inl e => [setErr (Some (message e))]
  end ++ [setLoading false].

(** One whole invocation from the render of the stored state [s], nothing
    else happening meanwhile: the requests sent and the state stored after. *)
Definition calculate (s : State) : list Request * State :=
  let entered := flush (calculate_enter s) s in
  let call := calculate_call s in
  (requests call, flush (calculate_settle (outcome call)) entered).

(** What else the user can do while the call is awaited: change a field of
    the form or click a dimension.  (A second click on Calculate is not among
    them: part_000 and part_002 disable the button while [loading].) *)
Inductive Event :=
| ChangeYear (v : number) | ChangeAgeFrom (v : number) | ChangeAgeTo (v : number)
| ChangeSampleN (v : number) | ChangeStep (v : number)
| ChangeSexFilter (v : SexFilter)
| ClickDimension (d : jsstring).

Definition handle (ev : Event) : list Update :=
  match ev with
  | ChangeYear v => [setYear v]
  | ChangeAgeFrom v => [setAgeFrom v]
  | ChangeAgeTo v => [setAgeTo v]
  | ChangeSampleN v => [setSampleN v]
  | ChangeStep v => [setStep v]
  | ChangeSexFilter v => [setSexFilter v]
  | ClickDimension d => toggleDim d
  end.

Definition handleAll (evs : list Event) (s : State) : State :=
  fold_left (fun acc ev => flush (handle ev) acc) evs s.

(** An invocation with events handled between its two halves. *)
Definition calculate_during (evs : list Event) (s : State) : list Request * State :=
  let entered := flush (calculate_enter s) s in
  let call := calculate_call s in
  (requests call, flush (calculate_settle (outcome call)) (handleAll evs entered)).

End Calculate.

(** *** The export: [downloadExcel] *)

(** A cell of the sheet and a row object: its keys in the order the object
    literal lists them. *)
Inductive CellValue :=
| VString (s : jsstring)
| VNumber (x : number).

Definition Row := list (jsstring * CellValue).

(** [XLSX.utils.json_to_sheet(rows)] is kept as the rows it was given, a
    workbook as its sheets by name, in the order they were appended. *)
Record Sheet := mkSheet { sheet_rows : list Row }.
Definition Workbook := list (jsstring * Sheet).
Definition json_to_sheet (rows : list Row) : Sheet := mkSheet rows.
Definition book_new : Workbook := [].
Definition book_append_sheet (wb : Workbook) (ws : Sheet) (name : jsstring) : Workbook :=
  wb ++ [(name, ws)].

(** [row[key]] and [Object.keys(row)]. *)
Definition field (key : jsstring) (r : Row) : option CellValue :=
  option_map snd (find (fun kv => jsstring_eqb (fst kv) key) r).
Definition keys (r : Row) : list jsstring := map fst r.

(** The effect of [XLSX.writeFile(wb, name)]. *)
Record Download := mkDownload { file_name : jsstring; file_book : Workbook }.

(** [Number((share * 100).toFixed(2))]. *)
Definition sharePercent (share : number) : number :=
  Number_of_Fixed (toFixed2 (share * 100)%float).

(** [s.replace(/_/g, " ")]. *)
Definition replaceUnderscores (s : jsstring) : jsstring :=
  map (fun c => if code_unit_eqb c 95%N then 32%N else c) s.

(** [\w] without the [u] flag: an ASCII letter, a digit or the underscore. *)
Definition isWordChar (c : code_unit) : bool :=
  ((97 <=? c)%N && (c <=? 122)%N) || ((65 <=? c)%N && (c <=? 90)%N)
  || isDigit c || code_unit_eqb c 95%N.

(** [c.toUpperCase()] for a one-unit string [c] that [\w] matched. *)
Definition toUpperCase (c : code_unit) : code_unit :=
  if ((97 <=? c)%N && (c <=? 122)%N)%bool then (c - 32)%N else c.

(** [s.replace(/\b\w/g, (c) => c.toUpperCase())]: a unit matches when it is
    a word character and the unit before it in [s], if any, is not. *)
Fixpoint upcaseWordStarts (afterWord : bool) (s : jsstring) : jsstring :=
  match s with
  | [] => []
  | c :: s' =>
      (if isWordChar c && negb afterWord then toUpperCase c else c)
      :: upcaseWordStarts (isWordChar c) s'
  end.

(** [DIMENSIONS.find((d) => d.key === key)], then the label or the fallback. *)
Definition prettyWith (DIMENSIONS : list (jsstring * jsstring)) (key : jsstring) : jsstring :=
  match find (fun d => jsstring_eqb (fst d) key) DIMENSIONS with
  | Some hit => snd hit
  | None => upcaseWordStarts false (replaceUnderscores key)
  end.

(** [s.replace(/[:T]/g, "-")]. *)
Definition replaceColonT (s : jsstring) : jsstring :=
  map (fun c => if code_unit_eqb c 58%N || code_unit_eqb c 84%N then 45%N else c) s.

Section Excel.

(** Where the three pages differ: the [Dimension] cell of a row, the key of
    the share column, and the file name, given [new Date().toISOString()]. *)
Variable dimensionCell : jsstring -> jsstring.
Variable shareKey : jsstring.
Variable fileName : jsstring -> jsstring.

Definition exportRow (dim : jsstring) (c : QuotaCell) : Row :=
  [ (lit "Dimension", VString (dimensionCell dim));
    (lit "Label", VString (label c));
    (lit "Population", VNumber (pop c));
    (shareKey, VNumber (sharePercent (share c)));
    (lit "Quota", VNumber (quota c)) ].

(** The two nested loops of [downloadExcel], pushing onto [rows]: what the
    specification calls [flatten]. *)
Definition flatten (d : QuotaResponse) : list Row :=
  fold_left
    (fun rows entry =>
       fold_left (fun rows c => rows ++ [exportRow (fst entry) c])
         (cells (snd entry)) rows)
    (results d) [].

(** For the statements below (not in the source): the rows one entry of
    [results] contributes. *)
Definition rowsOf (entry : jsstring * DimensionResult) : list Row :=
  map (exportRow (fst entry)) (cells (snd entry)).

(** [None]: the early [return], nothing written. *)
Definition downloadExcel (data : option QuotaResponse) (now : jsstring) : option Download :=
  match data with
  | None => None
  | Some d =>
      let rows := flatten d in
      let ws := json_to_sheet rows in
      let wb := book_new in
      let wb := book_append_sheet wb ws (lit "Quotas") in
      Some (mkDownload (fileName now) wb)
  end.

End Excel.

End Page.

(* ================================================================= *)
(** ** src/unnamed/part_000 *)

Module Part000.

Definition DIMENSIONS : list (jsstring * jsstring) :=
  [ (lit "sex", lit "Sex");
    (lit "age_group", lit "Age Group");
    (lit "county", lit "County");
    (lit "region", lit "Region");
    (lit "tallinn_districts", lit "Tallinn Districts");
    (lit "settlement_type", lit "Settlement Type");
    (lit "education", lit "Education");
    (lit "nationality", lit "Nationality");
    (lit "birth_country", lit "Birth Country");
    (lit "citizenship_country", lit "Citizenship Country") ].

Definition prettyDim (key : jsstring) : jsstring := Page.prettyWith DIMENSIONS key.

Definition initial : Page.State :=
  Page.mkState 2025%float 18%float 64%float 1000%float 10%float Page.total
    [lit "sex"; lit "age_group"; lit "county"; lit "region"] None None false.

(** [`quota_results_${stamp}.xlsx`] with [stamp = iso.slice(0, 10)]. *)
Definition fileName (iso : jsstring) : jsstring :=
  lit "quota_results_" ++ slice0 10 iso ++ lit ".xlsx".

Definition flatten : Page.QuotaResponse -> list Page.Row :=
  Page.flatten prettyDim (lit "Share %").

Definition downloadExcel : option Page.QuotaResponse -> jsstring -> option Page.Download :=
  Page.downloadExcel prettyDim (lit "Share %") fileName.

End Part000.

(* ================================================================= *)
(** ** src/unnamed/part_001 *)

Module Part001.

Definition DIMENSIONS : list (jsstring * jsstring) :=
  [ (lit "sex", lit "Sex");
    (lit "age_group", lit "Age Group");
    (lit "county", lit "County");
    (lit "region", lit "Region");
    (lit "tallinn_districts", lit "Tallinn Districts");
    (lit "settlement_type", lit "Settlement Type");
    (lit "education", lit "Education");
    (lit "nationality", lit "Nationality");
    (lit "birth_country", lit "Birth Country");
    (lit "citizenship_country", lit "Citizenship Country") ].

Definition prettyKey (k : jsstring) : jsstring := Page.prettyWith DIMENSIONS k.

Definition initial : Page.State :=
  Page.mkState 2025%float 18%float 64%float 1000%float 10%float Page.total
    [lit "sex"; lit "age_group"; lit "county"; lit "region"] None None false.

(** The constant ["quota_results.xlsx"]: this page reads no clock. *)
Definition fileName (iso : jsstring) : jsstring := lit "quota_results.xlsx".

Definition flatten : Page.QuotaResponse -> list Page.Row :=
  Page.flatten prettyKey (lit "SharePercent").

Definition downloadExcel : option Page.QuotaResponse -> jsstring -> option Page.Download :=
  Page.downloadExcel prettyKey (lit "SharePercent") fileName.

End Part001.

(* ================================================================= *)
(** ** src/unnamed/part_002 *)

Module Part002.

Definition ALL_DIMS : list jsstring :=
  [ lit "sex"; lit "age_group"; lit "county"; lit "region"; lit "tallinn_districts";
    lit "settlement_type"; lit "education"; lit "nationality"; lit "birth_country";
    lit "citizenship_country" ].

Definition initial : Page.State :=
  Page.mkState 2025%float 18%float 74%float 1000%float 10%float Page.total
    [lit "sex"; lit "age_group"; lit "county"; lit "region"] None None false.

(** [`quota_results_${stamp}.xlsx`] with
    [stamp = iso.slice(0, 19).replace(/[:T]/g, "-")]. *)
Definition fileName (iso : jsstring) : jsstring :=
  lit "quota_results_" ++ Page.replaceColonT (slice0 19 iso) ++ lit ".xlsx".

(** [Dimension: dim]: the key as it is. *)
Definition flatten : Page.QuotaResponse -> list Page.Row :=
  Page.flatten (fun dim => dim) (lit "SharePercent").

Definition downloadExcel : option Page.QuotaResponse -> jsstring -> option Page.Download :=
  Page.downloadExcel (fun dim => dim) (lit "SharePercent") fileName.

End Part002.

(* ================================================================= *)
(** ** What the page shows (the JSX conditions of the three pages) *)

Module View.

(** [API_BASE ?? "(missing NEXT_PUBLIC_API_BASE)"]: only [undefined] is
    replaced, the empty string is shown as it is. *)
Definition missingNotice : jsstring := lit "(missing NEXT_PUBLIC_API_BASE)".
Definition backendLabel (API_BASE : option jsstring) : jsstring :=
  match API_BASE with
  | Some base => base
  | None => missingNotice
  end.

(** [{err && <pre>{err}</pre>}]: [null] and the empty string are falsy. *)
Definition showError (s : Page.State) : bool :=
  match Page.err s with
  | Some (_ :: _) => true
  | _ => false
  end.

(** [{data && ...}]: the Download button and the result tables. *)
Definition showResults (s : Page.State) : bool :=
  match Page.data s with
  | Some _ => true
  | None => false
  end.

(** [disabled={loading}] on the Calculate button of part_000 and part_002. *)
Definition calculateDisabled (s : Page.State) : bool := Page.loading s.

End View.

(* ================================================================= *)
(** ** A session: form events and invocations of [calculate], in turn *)

Module Session.

Section WithService.

Variable NEXT_PUBLIC_API_BASE : option jsstring.
Variable JSON_stringify : Page.Payload -> jsstring.
Variable JSON_parse : jsstring -> option Page.QuotaResponse.

(** Either a form event while idle, or a click on Calculate: the network as
    that invocation finds it, and the form events handled before it settles.
    Invocations do not overlap, as on the pages that disable the button. *)
Inductive Step :=
| Form (ev : Page.Event)
| Invocation (fetch : Request -> Error + Response) (during : list Page.Event).

Definition step (s : Page.State) (st : Step) : Page.State :=
  match st with
  | Form ev => Page.flush (Page.handle ev) s
  | Invocation fetch during =>
      snd (Page.calculate_during NEXT_PUBLIC_API_BASE fetch JSON_stringify JSON_parse
             during s)
  end.

Definition run (steps : list Step) (s : Page.State) : Page.State :=
  fold_left step steps s.

End WithService.

(** What holds between the steps of a session (not in the source). *)
Definition idle (s : Page.State) : Prop :=
  NoDup (Page.dims s)
  /\ Page.loading s = false
  /\ (Page.data s = None \/ Page.err s = None).

End Session.

(* ================================================================= *)
(** ** The shape of [new Date().toISOString()] *)

(** [YYYY-MM-DDTHH:mm:ss] at the start, as for every year from 0 to 9999;
    in the template [d] stands for a digit. *)
Definition isoTemplate : jsstring := lit "dddd-dd-ddTdd:dd:dd".

Fixpoint matchesTemplate (t s : jsstring) : bool :=
  match t, s with
  | [], _ => true
  | p :: t', c :: s' =>
      (if code_unit_eqb p 100%N then isDigit c else code_unit_eqb c p)
      && matchesTemplate t' s'
  | _ :: _, [] => false
  end.

Definition isoShaped (iso : jsstring) : bool := matchesTemplate isoTemplate iso.

(* ================================================================= *)
(** ** Reading a row back (for the statements, not in the source) *)

(** The label, population and quota cells of a row, and what they should be
    for a cell of the response. *)
Definition copied (r : Page.Row) :
  option Page.CellValue * option Page.CellValue * option Page.CellValue :=
  (Page.field (lit "Label") r, Page.field (lit "Population") r,
   Page.field (lit "Quota") r).

Definition copiedFrom (c : Page.QuotaCell) :
  option Page.CellValue * option Page.CellValue * option Page.CellValue :=
  (Some (Page.VString (Page.label c)), Some (Page.VNumber (Page.pop c)),
   Some (Page.VNumber (Page.quota c))).

(** Equality of two decimal results of [toFixed(2)], as a test. *)
Definition fixedEqb (f g : Fixed) : bool :=
  match f, g with
  | FixedDecimal s n, FixedDecimal s' n' => Bool.eqb s s' && (n =? n')%Z
  | _, _ => false
  end.

(* ================================================================= *)
(** * Properties *)

(** ** Strings *)

Lemma jsstring_eqb_eq (a b : jsstring) : jsstring_eqb a b = true <-> a = b.
Proof.
  revert b; induction a as [|x a IH]; intros [|y b]; simpl; split;
    try congruence; try reflexivity.
  - rewrite andb_true_iff. intros [Hxy Hab].
    apply N.eqb_eq in Hxy. apply IH in Hab. congruence.
  - intros E; injection E as -> ->. rewrite andb_true_iff. split.
    + apply N.eqb_refl.
    + now apply IH.
Qed.

Lemma jsstring_eqb_refl (a : jsstring) : jsstring_eqb a a = true.
Proof. now apply jsstring_eqb_eq. Qed.

Lemma jsstring_eqb_neq (a b : jsstring) : jsstring_eqb a b = false <-> a <> b.
Proof.
  split.
  - intros E H. apply jsstring_eqb_eq in H. congruence.
  - intros H. destruct (jsstring_eqb a b) eqn:E; [|reflexivity].
    apply jsstring_eqb_eq in E. contradiction.
Qed.

Lemma falsy_nil (s : jsstring) : falsy s = true <-> s = [].
Proof. destruct s; simpl; split; congruence. Qed.

Lemma trimStart_nil (s : jsstring) :
  trimStart s = [] <-> forallb isTrimmable s = true.
Proof.
  induction s as [|c s IH]; simpl.
  - tauto.
  - destruct (isTrimmable c); simpl.
    + exact IH.
    + split; discriminate.
Qed.

Lemma trimStart_head (s r : jsstring) (c : code_unit) :
  trimStart s = c :: r -> isTrimmable c = false.
Proof.
  induction s as [|x s IH]; simpl.
  - discriminate.
  - destruct (isTrimmable x) eqn:E.
    + exact IH.
    + intros H. injection H as -> _. exact E.
Qed.

Lemma forallb_rev {A} (f : A -> bool) (l : list A) :
  forallb f (rev l) = forallb f l.
Proof.
  induction l as [|x l IH]; simpl.
  - reflexivity.
  - rewrite forallb_app, IH. simpl. rewrite andb_true_r. apply andb_comm.
Qed.

(** [text.trim()] is empty exactly when every unit of [text] is white space
    or a line terminator. *)
Lemma trim_nil (s : jsstring) : trim s = [] <-> forallb isTrimmable s = true.
Proof.
  unfold trim. split.
  - intros H.
    assert (H1 : trimStart (rev (trimStart s)) = []).
    { destruct (trimStart (rev (trimStart s))) as [|c l]; [reflexivity|].
      simpl in H. destruct (rev l); discriminate. }
    apply trimStart_nil in H1. rewrite forallb_rev in H1.
    destruct (trimStart s) as [|c r] eqn:E.
    + now apply trimStart_nil.
    + apply trimStart_head in E. simpl in H1. rewrite E in H1. discriminate.
  - intros H. apply trimStart_nil in H. rewrite H. reflexivity.
Qed.

Lemma slice0_length (n : nat) (s : jsstring) : List.length (slice0 n s) <= n.
Proof. unfold slice0. rewrite length_firstn. lia. Qed.

(** ** [getApiBase] *)

Lemma replaceTrailingSlash_snoc_slash (s : jsstring) :
  Api.replaceTrailingSlash (s ++ [47%N]) = s.
Proof.
  induction s as [|c s IH]; simpl.
  - reflexivity.
  - destruct (s ++ [47%N]) eqn:E.
    + now destruct s.
    + now rewrite IH.
Qed.

Lemma replaceTrailingSlash_other (s : jsstring) :
  (forall r, s <> r ++ [47%N]) -> Api.replaceTrailingSlash s = s.
Proof.
  induction s as [|c s IH]; intros H; simpl.
  - reflexivity.
  - destruct s as [|d s].
    + unfold code_unit_eqb. destruct (N.eqb_spec c 47) as [->|_]; [|reflexivity].
      now destruct (H []).
    + rewrite IH; [reflexivity|].
      intros r E. apply (H (c :: r)). simpl. now rewrite E.
Qed.

Lemma ends_with_slash_dec (s : jsstring) :
  (exists r, s = r ++ [47%N]) \/ (forall r, s <> r ++ [47%N]).
Proof.
  destruct s as [|c s] using rev_ind.
  - right. intros r E. now destruct r.
  - destruct (N.eq_dec c 47) as [->|Hc].
    + left. now exists s.
    + right. intros r E. apply app_inj_tail in E. destruct E. contradiction.
Qed.

(** ** [postJson] *)

Section PostJsonFacts.

Variable env : option jsstring.
Variable fetch : Request -> Error + Response.
Variable P T : Type.
Variable JSON_stringify : P -> jsstring.
Variable JSON_parse : jsstring -> option T.

Lemma falsy_trim (s : jsstring) : falsy (trim s) = forallb isTrimmable s.
Proof.
  destruct (forallb isTrimmable s) eqn:E.
  - apply falsy_nil. now apply trim_nil.
  - destruct (falsy (trim s)) eqn:F; [|reflexivity].
    apply falsy_nil, trim_nil in F. congruence.
Qed.

Lemma postJson_run (path : jsstring) (payload : P) :
  Api.postJson env fetch JSON_stringify JSON_parse path payload =
  match Api.getApiBase env with
  | inl e => ([], inl e)
  | inr b =>
      ([Api.requestTo JSON_stringify b path payload],
       Api.classify JSON_parse (fetch (Api.requestTo JSON_stringify b path payload)))
  end.
Proof.
  unfold Api.postJson, Api.lift, Api.call_fetch, bind.
  destruct (Api.getApiBase env) as [e|b]; [reflexivity|].
  fold (Api.requestTo JSON_stringify b path payload).
  destruct (fetch (Api.requestTo JSON_stringify b path payload)) as [e|res]; simpl; [reflexivity|].
  rewrite falsy_trim.
  destruct (negb (ok res)); [reflexivity|].
  destruct (forallb isTrimmable (text res)); [reflexivity|].
  destruct (JSON_parse (text res)); reflexivity.
Qed.

Lemma getApiBase_unset :
  (env = None \/ env = Some []) <->
  Api.getApiBase env = inl (mkError Api.missingBaseMessage).
Proof.
  unfold Api.getApiBase. destruct env as [[|c s]|]; simpl; split; intros H;
    try tauto; try discriminate.
  destruct H; discriminate.
Qed.

Lemma getApiBase_set (base : jsstring) :
  env = Some base -> base <> [] ->
  Api.getApiBase env = inr (Api.replaceTrailingSlash base).
Proof.
  intros -> H. unfold Api.getApiBase. destruct base; [contradiction|reflexivity].
Qed.

End PostJsonFacts.

Lemma String_of_N_head (n : N) :
  exists c r, String_of_N n = c :: r /\ isDigit c = true.
Proof.
  unfold String_of_N, N.to_uint. destruct n as [|p].
  - now exists 48%N, [].
  - unfold Pos.to_uint.
    assert (H : forall q, Pos.to_little_uint q <> Decimal.Nil).
    { induction q; simpl; try discriminate;
        destruct (Pos.to_little_uint q); simpl; congruence. }
    assert (R : forall d acc, d <> Decimal.Nil \/ acc <> Decimal.Nil ->
                              Decimal.revapp d acc <> Decimal.Nil).
    { induction d; intros acc [Hd|Ha]; simpl; try congruence;
        try (apply IHd; right; discriminate). }
    specialize (H p). unfold Decimal.rev.
    specialize (R (Pos.to_little_uint p) Decimal.Nil (or_introl H)).
    destruct (Decimal.revapp (Pos.to_little_uint p) Decimal.Nil) eqn:E;
      [contradiction| | | | | | | | | |]; simpl; eauto.
Qed.

(** C10.  For a non-empty configured base, [getApiBase] returns it without
    its final ["/"] when it ends in one and unchanged otherwise (one slash
    only: a second one stays); [postJson] sends its single request to that
    string followed by the path; so a base without a final slash and the same
    base with one slash added give the same request. *)
Theorem getApiBase_drops_one_trailing_slash
  (fetch : Request -> Error + Response) (P T : Type)
  (JSON_stringify : P -> jsstring) (JSON_parse : jsstring -> option T)
  (base path : jsstring) (payload : P) :
  base <> [] ->
  exists b,
    Api.getApiBase (Some base) = inr b
    /\ ((exists r, base = r ++ [47%N] /\ b = r)
        \/ ((forall r, base <> r ++ [47%N]) /\ b = base))
    /\ (exists req,
          requests (Api.postJson (Some base) fetch JSON_stringify JSON_parse path payload)
          = [req] /\ url req = b ++ path)
    /\ ((forall r, base <> r ++ [47%N]) ->
        requests (Api.postJson (Some (base ++ [47%N])) fetch JSON_stringify JSON_parse
                    path payload)
        = requests (Api.postJson (Some base) fetch JSON_stringify JSON_parse path payload)).
Proof.
  intros Hbase. exists (Api.replaceTrailingSlash base).
  assert (G : Api.getApiBase (Some base) = inr (Api.replaceTrailingSlash base))
    by now apply getApiBase_set.
  split; [exact G|]. split.
  - destruct (ends_with_slash_dec base) as [[r ->]|H].
    + left. exists r. now rewrite replaceTrailingSlash_snoc_slash.
    + right. split; [exact H|]. now apply replaceTrailingSlash_other.
  - split.
    + rewrite postJson_run, G. eexists. split; reflexivity.
    + intros H. rewrite !postJson_run, G.
      rewrite (@getApiBase_set (Some (base ++ [47%N])) (base ++ [47%N]) eq_refl).
      * rewrite replaceTrailingSlash_snoc_slash, (replaceTrailingSlash_other H).
        reflexivity.
      * now destruct base.
Qed.

Lemma getApiBase_drops_one_trailing_slash_witness :
  exists b,
    Api.getApiBase (Some (lit "https://api.test")) = inr b
    /\ requests (Api.postJson (Some (lit "https://api.test/"))
                   (fun _ => inl (mkError (lit "offline")))
                   (fun _ : unit => lit "{}") (fun _ => @None unit)
                   (lit "/v1/quotas/calculate") tt)
       = requests (Api.postJson (Some (lit "https://api.test"))
                     (fun _ => inl (mkError (lit "offline")))
                     (fun _ : unit => lit "{}") (fun _ => @None unit)
                     (lit "/v1/quotas/calculate") tt).
Proof.
  assert (Hne : lit "https://api.test" <> []) by discriminate.
  assert (Hns : forall r, lit "https://api.test" <> r ++ [47%N]).
  { intros r E. apply (f_equal (@rev _)) in E. rewrite rev_app_distr in E.
    vm_compute in E. discriminate. }
  destruct (getApiBase_drops_one_trailing_slash
              (fun _ => inl (mkError (lit "offline")))
              (fun _ : unit => lit "{}") (fun _ => @None unit)
              (lit "/v1/quotas/calculate") tt Hne) as (b & Hb & _ & _ & Hsame).
  exists b. split; [exact Hb|]. exact (Hsame Hns).
Defined.

(** The four messages [postJson] can throw with are told apart by their
    text, whatever the status and the body. *)
Lemma postJson_messages_distinct (res res' : Response) :
  Api.missingBaseMessage <> Api.emptyBodyMessage
  /\ Api.missingBaseMessage <> Api.statusMessage res
  /\ Api.missingBaseMessage <> Api.nonJsonMessage res
  /\ Api.emptyBodyMessage <> Api.statusMessage res
  /\ Api.emptyBodyMessage <> Api.nonJsonMessage res
  /\ Api.statusMessage res <> Api.nonJsonMessage res'.
Proof.
  unfold Api.statusMessage, Api.nonJsonMessage.
  destruct (String_of_N_head (status res)) as (c & r & -> & Hc).
  repeat split; try discriminate;
    intros E; apply (f_equal (fun l => nth 4 l 0%N)) in E; cbn in E;
    subst c; discriminate.
Qed.

(** C3 (amended).  [postJson] sorts every invocation into exactly one
    outcome.  With the base URL unset (undefined or empty) it throws the
    configuration error and sends nothing.  Otherwise it sends one request,
    to the base (final slash dropped) followed by the path, and: a rejected
    [fetch] is rethrown; a status outside 200-299 throws ["API <status>: "]
    and the first 500 units of the body; a 2xx body that is empty or all
    white space throws the empty-response error; any other 2xx body that
    [JSON.parse] rejects throws ["API returned non-JSON: "] and its first
    500 units; and what is left returns the parsed value.  The four messages
    differ from each other. *)
Theorem postJson_classification
  (env : option jsstring) (fetch : Request -> Error + Response) (P T : Type)
  (JSON_stringify : P -> jsstring) (JSON_parse : jsstring -> option T)
  (path : jsstring) (payload : P) :
  let run := Api.postJson env fetch JSON_stringify JSON_parse path payload in
  ((env = None \/ env = Some []) ->
     requests run = [] /\ outcome run = inl (mkError Api.missingBaseMessage))
  /\ (forall base, env = Some base -> base <> [] ->
      let req := Api.requestTo JSON_stringify (Api.replaceTrailingSlash base) path payload in
      requests run = [req]
      /\ (forall e, fetch req = inl e -> outcome run = inl e)
      /\ (forall res, fetch req = inr res ->
          (ok res = false ->
             outcome run
             = inl (mkError (lit "API " ++ String_of_N (status res) ++ lit ": "
                             ++ firstn 500 (text res))))
          /\ (ok res = true -> forallb isTrimmable (text res) = true ->
                outcome run = inl (mkError (lit "API returned empty response body.")))
          /\ (ok res = true -> forallb isTrimmable (text res) = false ->
                JSON_parse (text res) = None ->
                outcome run
                = inl (mkError (lit "API returned non-JSON: " ++ firstn 500 (text res))))
          /\ (forall v, ok res = true -> forallb isTrimmable (text res) = false ->
                JSON_parse (text res) = Some v -> outcome run = inr v)
          /\ List.length (firstn 500 (text res)) <= 500))
  /\ (forall res res',
        Api.missingBaseMessage <> Api.emptyBodyMessage
        /\ Api.missingBaseMessage <> Api.statusMessage res
        /\ Api.missingBaseMessage <> Api.nonJsonMessage res
        /\ Api.emptyBodyMessage <> Api.statusMessage res
        /\ Api.emptyBodyMessage <> Api.nonJsonMessage res
        /\ Api.statusMessage res <> Api.nonJsonMessage res').
Proof.
  intros run. subst run. rewrite postJson_run. split; [|split].
  - intros H. apply getApiBase_unset in H. rewrite H. split; reflexivity.
  - intros base He Hb req. rewrite (getApiBase_set He Hb). fold req.
    unfold requests, outcome; cbn [fst snd]. split; [reflexivity|]. split.
    + intros e ->. reflexivity.
    + intros res ->. unfold Api.classify. repeat split.
      * intros ->. reflexivity.
      * intros -> ->. reflexivity.
      * intros -> -> ->. reflexivity.
      * intros v -> -> ->. reflexivity.
      * apply slice0_length.
  - intros res res'. apply postJson_messages_distinct.
Qed.

Lemma postJson_classification_witness :
  let fetch500 := fun _ : Request => inr (mkResponse 500 (lit "server exploded")) in
  let fetchBlank := fun _ : Request => inr (mkResponse 200 []) in
  let fetchText := fun _ : Request => inr (mkResponse 200 (lit "<not json>")) in
  let parse := fun s : jsstring => if jsstring_eqb s (lit "7") then Some 7%N else None in
  let fetchSeven := fun _ : Request => inr (mkResponse 200 (lit "7")) in
  let post := fun env fetch =>
    outcome (Api.postJson env fetch (fun _ : unit => lit "{}") parse (lit "/v1") tt) in
  post None fetch500 = inl (mkError Api.missingBaseMessage)
  /\ post (Some (lit "https://api.test")) fetch500
     = inl (mkError (lit "API 500: server exploded"))
  /\ post (Some (lit "https://api.test")) fetchBlank
     = inl (mkError (lit "API returned empty response body."))
  /\ post (Some (lit "https://api.test")) fetchText
     = inl (mkError (lit "API returned non-JSON: <not json>"))
  /\ post (Some (lit "https://api.test")) fetchSeven = inr 7%N.
Proof.
  intros fetch500 fetchBlank fetchText parse fetchSeven post.
  assert (Hne : lit "https://api.test" <> []) by discriminate.
  split; [|split; [|split; [|split]]].
  - apply (postJson_classification None fetch500 (fun _ : unit => lit "{}") parse
             (lit "/v1") tt). now left.
  - destruct (postJson_classification (Some (lit "https://api.test")) fetch500
                (fun _ : unit => lit "{}") parse (lit "/v1") tt) as (_ & H & _).
    destruct (H _ eq_refl Hne) as (_ & _ & R).
    destruct (R _ eq_refl) as (R1 & _). exact (R1 eq_refl).
  - destruct (postJson_classification (Some (lit "https://api.test")) fetchBlank
                (fun _ : unit => lit "{}") parse (lit "/v1") tt) as (_ & H & _).
    destruct (H _ eq_refl Hne) as (_ & _ & R).
    destruct (R _ eq_refl) as (_ & R2 & _). exact (R2 eq_refl eq_refl).
  - destruct (postJson_classification (Some (lit "https://api.test")) fetchText
                (fun _ : unit => lit "{}") parse (lit "/v1") tt) as (_ & H & _).
    destruct (H _ eq_refl Hne) as (_ & _ & R).
    destruct (R _ eq_refl) as (_ & _ & R3 & _). exact (R3 eq_refl eq_refl eq_refl).
  - destruct (postJson_classification (Some (lit "https://api.test")) fetchSeven
                (fun _ : unit => lit "{}") parse (lit "/v1") tt) as (_ & H & _).
    destruct (H _ eq_refl Hne) as (_ & _ & R).
    destruct (R _ eq_refl) as (_ & _ & _ & R4 & _). exact (R4 _ eq_refl eq_refl eq_refl).
Defined.

(** C3 as stated fails on a 200 response whose body is one space: the body
    is not empty and [JSON.parse] rejects it, yet the error thrown is the
    empty-response one, not the non-JSON one. *)
Lemma postJson_blank_body_counterexample :
  ~ (forall (env : option jsstring) (fetch : Request -> Error + Response) (P T : Type)
            (JSON_stringify : P -> jsstring) (JSON_parse : jsstring -> option T)
            (path : jsstring) (payload : P) (base : jsstring) (res : Response),
       env = Some base -> base <> [] ->
       fetch (Api.requestTo JSON_stringify (Api.replaceTrailingSlash base) path payload)
       = inr res ->
       ok res = true -> text res <> [] -> JSON_parse (text res) = None ->
       outcome (Api.postJson env fetch JSON_stringify JSON_parse path payload)
       = inl (mkError (lit "API returned non-JSON: " ++ firstn 500 (text res)))).
Proof.
  intros H.
  specialize (H (Some (lit "https://api.test"))
                (fun _ => inr (mkResponse 200 (lit " ")))
                unit unit (fun _ => lit "{}") (fun _ => None) (lit "/v1") tt
                (lit "https://api.test") (mkResponse 200 (lit " "))
                eq_refl).
  assert (E : outcome (Api.postJson (Some (lit "https://api.test"))
                         (fun _ => inr (mkResponse 200 (lit " ")))
                         (fun _ : unit => lit "{}") (fun _ => @None unit) (lit "/v1") tt)
              = inl (mkError Api.emptyBodyMessage)) by reflexivity.
  rewrite E in H.
  assert (F : @inl Error unit (mkError Api.emptyBodyMessage)
              = inl (mkError (lit "API returned non-JSON: "
                              ++ firstn 500 (text (mkResponse 200 (lit " "))))));
    [apply H; (discriminate || reflexivity)|].
  vm_compute in F. discriminate.
Qed.

(** ** The dimension selection *)

Lemma includes_In (d : jsstring) (arr : list jsstring) :
  Page.includes d arr = true <-> In d arr.
Proof.
  unfold Page.includes. rewrite existsb_exists. split.
  - intros (x & Hx & E). apply jsstring_eqb_eq in E. now subst.
  - intros H. exists d. split; [exact H|apply jsstring_eqb_refl].
Qed.

Lemma includes_not_In (d : jsstring) (arr : list jsstring) :
  Page.includes d arr = false <-> ~ In d arr.
Proof.
  rewrite <- includes_In. destruct (Page.includes d arr); split; congruence.
Qed.

Lemma In_remove (d x : jsstring) (arr : list jsstring) :
  In x (filter (fun y => negb (jsstring_eqb y d)) arr) <-> In x arr /\ x <> d.
Proof.
  rewrite filter_In, negb_true_iff, jsstring_eqb_neq. tauto.
Qed.

(** One toggle: the key changes sides, every other key stays where it was. *)
Lemma toggle_In (d x : jsstring) (prev : list jsstring) :
  In x (Page.toggle d prev) <->
  (x = d /\ ~ In d prev) \/ (x <> d /\ In x prev).
Proof.
  unfold Page.toggle. destruct (Page.includes d prev) eqn:E.
  - apply includes_In in E. rewrite In_remove. split.
    + intros [H N]. now right.
    + intros [[-> N]|[N H]]; [contradiction|tauto].
  - apply includes_not_In in E. rewrite in_app_iff. simpl. split.
    + intros [H|[<-|[]]].
      * right. split; [|exact H]. intros ->. contradiction.
      * now left.
    + intros [[-> _]|[_ H]]; tauto.
Qed.

Lemma toggle_twice_In (d x : jsstring) (prev : list jsstring) :
  In x (Page.toggle d (Page.toggle d prev)) <-> In x prev.
Proof.
  rewrite toggle_In, !toggle_In.
  destruct (jsstring_eq_dec x d) as [->|N];
    destruct (in_dec jsstring_eq_dec d prev) as [I|I]; tauto.
Qed.

(** C9.  Clicking a dimension twice gives back the same set of selected
    keys; one click takes the key out when it is selected and puts it in when
    it is not, and moves no other key. *)
Theorem toggleDim_twice_same_set (d : jsstring) (s : Page.State) :
  let s1 := Page.flush (Page.toggleDim d) s in
  let s2 := Page.flush (Page.toggleDim d) s1 in
  (forall x, In x (Page.dims s2) <-> In x (Page.dims s))
  /\ (In d (Page.dims s1) <-> ~ In d (Page.dims s))
  /\ (forall x, x <> d -> (In x (Page.dims s1) <-> In x (Page.dims s))).
Proof.
  cbn -[Page.toggle]. split; [|split].
  - intros x. apply toggle_twice_In.
  - rewrite toggle_In. tauto.
  - intros x N. rewrite toggle_In. tauto.
Qed.

Lemma toggleDim_twice_same_set_witness :
  let s := Part000.initial in
  let s1 := Page.flush (Page.toggleDim (lit "sex")) s in
  (In (lit "county") (Page.dims s1) <-> In (lit "county") (Page.dims s))
  /\ ~ In (lit "sex") (Page.dims s1).
Proof.
  intros s s1.
  destruct (toggleDim_twice_same_set (lit "sex") s) as (_ & Hd & Hx).
  split.
  - apply Hx. discriminate.
  - intros H. apply Hd in H. apply H. now left.
Defined.

(** ** [calculate] *)

Section CalculateFacts.

Variable env : option jsstring.
Variable fetch : Request -> Error + Response.
Variable JSON_stringify : Page.Payload -> jsstring.
Variable JSON_parse : jsstring -> option Page.QuotaResponse.

Abbreviation calculate := (Page.calculate env fetch JSON_stringify JSON_parse).
Abbreviation calculate_during := (Page.calculate_during env fetch JSON_stringify JSON_parse).
Abbreviation calculate_call := (Page.calculate_call env fetch JSON_stringify JSON_parse).

(** The updates after the [await] leave the form fields and [dims] alone. *)
Lemma settle_dims (r : Error + Page.QuotaResponse) (s : Page.State) :
  Page.dims (Page.flush (Page.calculate_settle r) s) = Page.dims s
  /\ Page.sexFilter (Page.flush (Page.calculate_settle r) s) = Page.sexFilter s.
Proof. destruct r; split; reflexivity. Qed.

Lemma settle_data (r : Error + Page.QuotaResponse) (s : Page.State) :
  let s' := Page.flush (Page.calculate_settle r) s in
  Page.loading s' = false
  /\ match r with
     | inl e => Page.data s' = Page.data s /\ Page.err s' = Some (message e)
     | inr js => Page.data s' = Some js /\ Page.err s' = Page.err s
     end.
Proof. destruct r; repeat split; reflexivity. Qed.

Lemma enter_state (s : Page.State) :
  let s' := Page.flush (Page.calculate_enter s) s in
  Page.data s' = None /\ Page.err s' = None /\ Page.loading s' = true
  /\ Page.sexFilter s' = Page.sexFilter s
  /\ Page.dims s'
     = if Page.menOrWomen (Page.sexFilter s)
          && negb (Page.includes (lit "sex") (Page.dims s))
       then Page.dims s ++ [lit "sex"] else Page.dims s.
Proof.
  unfold Page.calculate_enter.
  destruct (Page.menOrWomen (Page.sexFilter s)
            && negb (Page.includes (lit "sex") (Page.dims s)));
    repeat split; reflexivity.
Qed.

Lemma calculate_dims (s : Page.State) :
  Page.sexFilter (snd (calculate s)) = Page.sexFilter s
  /\ Page.dims (snd (calculate s))
     = if Page.menOrWomen (Page.sexFilter s)
          && negb (Page.includes (lit "sex") (Page.dims s))
       then Page.dims s ++ [lit "sex"] else Page.dims s.
Proof.
  unfold Page.calculate. cbn [snd].
  destruct (settle_dims (outcome (calculate_call s))
              (Page.flush (Page.calculate_enter s) s)) as [-> ->].
  destruct (enter_state s) as (_ & _ & _ & -> & ->). split; reflexivity.
Qed.

(** Handling a form event touches none of [data], [err] and [loading]. *)
Lemma handleAll_data (evs : list Page.Event) (s : Page.State) :
  Page.data (Page.handleAll evs s) = Page.data s
  /\ Page.err (Page.handleAll evs s) = Page.err s
  /\ Page.loading (Page.handleAll evs s) = Page.loading s.
Proof.
  revert s. induction evs as [|ev evs IH]; intros s.
  - repeat split.
  - unfold Page.handleAll in *. cbn [fold_left].
    destruct (IH (Page.flush (Page.handle ev) s)) as (-> & -> & ->).
    destruct ev; repeat split.
Qed.

End CalculateFacts.

(** C2.  With the sex filter on men or women, one invocation of [calculate]
    leaves ["sex"] in the stored selection, appended when it was missing and
    nothing changed when it was there; a second invocation, from the render
    of that state, leaves the selection as it is. *)
Theorem calculate_repair_idempotent
  (env env' : option jsstring) (fetch fetch' : Request -> Error + Response)
  (JSON_stringify : Page.Payload -> jsstring)
  (JSON_parse : jsstring -> option Page.QuotaResponse) (s : Page.State) :
  Page.sexFilter s = Page.men \/ Page.sexFilter s = Page.women ->
  let s1 := snd (Page.calculate env fetch JSON_stringify JSON_parse s) in
  let s2 := snd (Page.calculate env' fetch' JSON_stringify JSON_parse s1) in
  In (lit "sex") (Page.dims s1)
  /\ Page.dims s2 = Page.dims s1
  /\ (In (lit "sex") (Page.dims s) -> Page.dims s1 = Page.dims s)
  /\ (~ In (lit "sex") (Page.dims s) -> Page.dims s1 = Page.dims s ++ [lit "sex"]).
Proof.
  intros Hf s1 s2.
  assert (Hm : Page.menOrWomen (Page.sexFilter s) = true)
    by (destruct Hf as [-> | ->]; reflexivity).
  destruct (calculate_dims env fetch JSON_stringify JSON_parse s) as [F1 D1].
  destruct (calculate_dims env' fetch' JSON_stringify JSON_parse s1) as [_ D2].
  fold s1 in F1, D1. fold s2 in D2.
  rewrite Hm in D1. rewrite F1, Hm in D2. cbn [andb] in D1, D2.
  assert (I1 : In (lit "sex") (Page.dims s1)).
  { rewrite D1. destruct (Page.includes (lit "sex") (Page.dims s)) eqn:E; cbn [negb].
    - now apply includes_In.
    - apply in_or_app. right. now left. }
  split; [exact I1|]. split; [|split].
  - rewrite D2. apply includes_In in I1. now rewrite I1.
  - intros I. apply includes_In in I. now rewrite D1, I.
  - intros N. apply includes_not_In in N. now rewrite D1, N.
Qed.

Lemma calculate_repair_idempotent_witness :
  let s := Page.mkState 2025%float 18%float 64%float 1000%float 10%float Page.women
             [lit "county"] None None false in
  let offline := fun _ : Request => inl (mkError (lit "offline")) in
  let s1 := snd (Page.calculate None offline (fun _ => []) (fun _ => None) s) in
  In (lit "sex") (Page.dims s1)
  /\ Page.dims (snd (Page.calculate None offline (fun _ => []) (fun _ => None) s1))
     = Page.dims s1.
Proof.
  intros s offline s1.
  destruct (calculate_repair_idempotent None None offline offline
              (fun _ => []) (fun _ => None) s (or_intror eq_refl))
    as (H1 & H2 & _).
  split; [exact H1|exact H2].
Defined.

(** C1 (the code departs from it).  The request [calculate] sends carries the
    dimensions of the render that created the handler: [payload] was
    memoised before the click, and the queued [setDims] reaches the stored
    state only.  So with the filter on men or women and ["sex"] not selected,
    the request of that invocation lacks ["sex"], while the selection stored
    afterwards has it. *)
Theorem calculate_sends_render_dimensions
  (fetch : Request -> Error + Response)
  (JSON_stringify : Page.Payload -> jsstring)
  (JSON_parse : jsstring -> option Page.QuotaResponse)
  (c : code_unit) (b : jsstring) (s : Page.State) :
  let run := Page.calculate (Some (c :: b)) fetch JSON_stringify JSON_parse s in
  fst run = [Api.requestTo JSON_stringify (Api.replaceTrailingSlash (c :: b))
               Page.calculatePath (Page.payload s)]
  /\ Page.dimensions (Page.payload s) = Page.dims s
  /\ (Page.menOrWomen (Page.sexFilter s) = true -> ~ In (lit "sex") (Page.dims s) ->
      Page.dims (snd run) = Page.dims s ++ [lit "sex"]
      /\ Page.dimensions (Page.payload s) <> Page.dims s ++ [lit "sex"]).
Proof.
  intros run. split; [|split].
  - unfold run, Page.calculate, Page.calculate_call. cbn [fst].
    rewrite postJson_run.
    rewrite (@getApiBase_set (Some (c :: b)) (c :: b) eq_refl); [reflexivity|discriminate].
  - reflexivity.
  - intros Hm N. split.
    + destruct (calculate_dims (Some (c :: b)) fetch JSON_stringify JSON_parse s) as [_ D].
      fold run in D. apply includes_not_In in N. now rewrite D, Hm, N.
    + cbn [Page.payload Page.dimensions]. intros E.
      apply (f_equal (@List.length _)) in E. rewrite length_app in E.
      cbn [List.length] in E. lia.
Qed.

Lemma calculate_sends_render_dimensions_witness :
  let s := Page.mkState 2025%float 18%float 64%float 1000%float 10%float Page.women
             [lit "county"] None None false in
  let run := Page.calculate (Some (lit "https://api.test"))
               (fun _ => inl (mkError (lit "offline"))) (fun _ => []) (fun _ => None) s in
  Page.dimensions (Page.payload s) = [lit "county"]
  /\ Page.dims (snd run) = [lit "county"; lit "sex"].
Proof.
  intros s run.
  destruct (calculate_sends_render_dimensions
              (fun _ => inl (mkError (lit "offline"))) (fun _ => []) (fun _ => None)
              104%N (lit "ttps://api.test") s) as (_ & Hp & Hd).
  split; [exact Hp|].
  assert (N : ~ In (lit "sex") (Page.dims s)).
  { intros [E|[]]. vm_compute in E. discriminate. }
  exact (proj1 (Hd eq_refl N)).
Defined.

(** C8.  After an invocation of [calculate] whose call threw (a status
    outside 200-299, an empty body, a body that is not JSON, or anything else
    thrown), no response is stored and the error text is the thrown error's
    message; after one whose call returned, the stored response is the new
    one alone and the error text is cleared.  Form events handled while the
    call is awaited change none of this, and [loading] is true in every
    render until the call settles (which is when part_000 and part_002
    disable the Calculate button, so that no second invocation starts). *)
Theorem calculate_stores_outcome
  (env : option jsstring) (fetch : Request -> Error + Response)
  (JSON_stringify : Page.Payload -> jsstring)
  (JSON_parse : jsstring -> option Page.QuotaResponse)
  (evs : list Page.Event) (s : Page.State) :
  let call := Page.calculate_call env fetch JSON_stringify JSON_parse s in
  let s' := snd (Page.calculate_during env fetch JSON_stringify JSON_parse evs s) in
  Page.loading s' = false
  /\ (forall e, outcome call = inl e ->
        Page.data s' = None /\ Page.err s' = Some (message e))
  /\ (forall js, outcome call = inr js ->
        Page.data s' = Some js /\ Page.err s' = None)
  /\ (forall base res, env = Some base -> base <> [] ->
        fetch (Api.requestTo JSON_stringify (Api.replaceTrailingSlash base)
                 Page.calculatePath (Page.payload s)) = inr res ->
        (ok res = false ->
           Page.data s' = None /\ Page.err s' = Some (Api.statusMessage res))
        /\ (ok res = true -> forallb isTrimmable (text res) = true ->
              Page.data s' = None /\ Page.err s' = Some Api.emptyBodyMessage)
        /\ (ok res = true -> forallb isTrimmable (text res) = false ->
              JSON_parse (text res) = None ->
              Page.data s' = None /\ Page.err s' = Some (Api.nonJsonMessage res)))
  /\ (forall before after, evs = before ++ after ->
        Page.loading
          (Page.handleAll before (Page.flush (Page.calculate_enter s) s)) = true).
Proof.
  intros call s'.
  assert (L : Page.loading s' = false
              /\ match outcome call with
                 | inl e => Page.data s' = None /\ Page.err s' = Some (message e)
                 | inr js => Page.data s' = Some js /\ Page.err s' = None
                 end).
  { unfold s', Page.calculate_during. cbn [snd]. fold call.
    pose proof (settle_data (outcome call)
                  (Page.handleAll evs (Page.flush (Page.calculate_enter s) s))) as H.
    cbv zeta in H. destruct H as [H1 H2]. split; [exact H1|].
    destruct (handleAll_data evs (Page.flush (Page.calculate_enter s) s))
      as (Hd & He & _).
    destruct (enter_state s) as (Ed & Ee & _).
    rewrite Ed in Hd. rewrite Ee in He.
    destruct (outcome call) as [e|js]; destruct H2 as [H2 H3]; split; congruence. }
  destruct L as [L1 L2]. split; [exact L1|]. split; [|split; [|split]].
  - intros e E. now rewrite E in L2.
  - intros js E. now rewrite E in L2.
  - intros base res He Hb Hf.
    assert (O : outcome call = Api.classify JSON_parse (inr res)).
    { unfold call, Page.calculate_call. rewrite postJson_run, (getApiBase_set He Hb).
      unfold outcome. cbn [snd]. now rewrite Hf. }
    rewrite O in L2. unfold Api.classify in L2. split; [|split].
    + intros Hok. rewrite Hok in L2. exact L2.
    + intros Hok Hws. rewrite Hok, Hws in L2. exact L2.
    + intros Hok Hws Hp. rewrite Hok, Hws, Hp in L2. exact L2.
  - intros before after _.
    destruct (handleAll_data before (Page.flush (Page.calculate_enter s) s))
      as (_ & _ & ->).
    now destruct (enter_state s) as (_ & _ & -> & _).
Qed.

Lemma calculate_stores_outcome_witness :
  let cell := Page.mkCell (lit "c1") (lit "Harju") 600000%float 0.6667%float 667%float in
  let old := Page.mkQuotaResponse 1%float 1%float [] None in
  let new := Page.mkQuotaResponse 900000%float 1000%float
               [(lit "county", Page.mkDimensionResult 900000%float [cell] None)] None in
  let s := Page.mkState 2025%float 18%float 64%float 1000%float 10%float Page.women
             [lit "county"] (Some old) (Some (lit "stale")) false in
  let parse := fun t : jsstring => if jsstring_eqb t (lit "new") then Some new else None in
  let after := fun fetch =>
    snd (Page.calculate_during (Some (lit "https://api.test")) fetch (fun _ => [])
           parse [Page.ClickDimension (lit "region")] s) in
  let failed := after (fun _ => inr (mkResponse 500 (lit "server exploded"))) in
  let done := after (fun _ => inr (mkResponse 200 (lit "new"))) in
  (Page.data failed = None /\ Page.err failed = Some (lit "API 500: server exploded"))
  /\ (Page.data done = Some new /\ Page.err done = None).
Proof.
  intros cell old new s parse after failed done.
  assert (Hne : lit "https://api.test" <> []) by discriminate.
  split.
  - destruct (calculate_stores_outcome (Some (lit "https://api.test"))
                (fun _ => inr (mkResponse 500 (lit "server exploded"))) (fun _ => [])
                parse [Page.ClickDimension (lit "region")] s) as (_ & _ & _ & H & _).
    destruct (H _ _ eq_refl Hne eq_refl) as (H1 & _). exact (H1 eq_refl).
  - destruct (calculate_stores_outcome (Some (lit "https://api.test"))
                (fun _ => inr (mkResponse 200 (lit "new"))) (fun _ => [])
                parse [Page.ClickDimension (lit "region")] s) as (_ & _ & H & _).
    exact (H new eq_refl).
Defined.

(** ** [downloadExcel]: the rows *)

Section FlattenFacts.

Variable dimensionCell : jsstring -> jsstring.
Variable shareKey : jsstring.

Abbreviation exportRow := (Page.exportRow dimensionCell shareKey).
Abbreviation flatten := (Page.flatten dimensionCell shareKey).

Lemma push_cells (dim : jsstring) (cs : list Page.QuotaCell) (rows : list Page.Row) :
  fold_left (fun rows c => rows ++ [exportRow dim c]) cs rows
  = rows ++ map (exportRow dim) cs.
Proof.
  revert rows. induction cs as [|c cs IH]; intros rows; cbn [fold_left map].
  - now rewrite app_nil_r.
  - rewrite IH, <- app_assoc. reflexivity.
Qed.

Lemma push_entries (entries : list (jsstring * Page.DimensionResult))
      (rows : list Page.Row) :
  fold_left
    (fun rows entry =>
       fold_left (fun rows c => rows ++ [exportRow (fst entry) c])
         (Page.cells (snd entry)) rows)
    entries rows
  = rows ++ flat_map (Page.rowsOf dimensionCell shareKey) entries.
Proof.
  revert rows. induction entries as [|entry entries IH]; intros rows;
    cbn [fold_left flat_map].
  - now rewrite app_nil_r.
  - rewrite IH, push_cells, <- app_assoc. reflexivity.
Qed.

Lemma flatten_flat_map (d : Page.QuotaResponse) :
  flatten d = flat_map (Page.rowsOf dimensionCell shareKey) (Page.results d).
Proof. unfold Page.flatten. now rewrite push_entries. Qed.

Lemma flat_map_rowsOf_length (entries : list (jsstring * Page.DimensionResult)) :
  List.length (flat_map (Page.rowsOf dimensionCell shareKey) entries)
  = list_sum (map (fun entry => List.length (Page.cells (snd entry))) entries).
Proof.
  induction entries as [|entry entries IH]; simpl.
  - reflexivity.
  - unfold Page.rowsOf at 1. now rewrite length_app, length_map, IH.
Qed.

Lemma list_sum_Permutation (l l' : list nat) :
  Permutation l l' -> list_sum l = list_sum l'.
Proof.
  induction 1; simpl; lia.
Qed.

End FlattenFacts.

(** C4.  On every page, [flatten] yields one row per cell: as many rows as
    the cell counts of the entries of [results] add up to, a number that a
    reordering of the entries does not change; and the rows are those of the
    first entry in cell order, then those of the second, and so on, so equal
    inputs give equal row sequences. *)
Theorem flatten_row_count_and_order
  (dimensionCell : jsstring -> jsstring) (shareKey : jsstring)
  (d : Page.QuotaResponse) :
  let flatten := Page.flatten dimensionCell shareKey in
  flatten d
  = flat_map (fun entry => map (Page.exportRow dimensionCell shareKey (fst entry))
                             (Page.cells (snd entry)))
      (Page.results d)
  /\ List.length (flatten d)
     = list_sum (map (fun entry => List.length (Page.cells (snd entry))) (Page.results d))
  /\ (forall d', Permutation (Page.results d) (Page.results d') ->
        List.length (flatten d') = List.length (flatten d))
  /\ (forall d', Page.results d' = Page.results d -> flatten d' = flatten d).
Proof.
  intros flatten. unfold flatten. split; [|split; [|split]].
  - apply flatten_flat_map.
  - rewrite flatten_flat_map. apply flat_map_rowsOf_length.
  - intros d' Hp. rewrite !flatten_flat_map, !flat_map_rowsOf_length.
    symmetry. apply list_sum_Permutation. now apply Permutation_map.
  - intros d' E. rewrite !flatten_flat_map. now rewrite E.
Qed.

Lemma flatten_row_count_and_order_witness :
  let cell := fun name => Page.mkCell name name 1%float 0.5%float 1%float in
  let sex := (lit "sex", Page.mkDimensionResult 2%float [cell (lit "m"); cell (lit "f")] None) in
  let county := (lit "county", Page.mkDimensionResult 2%float [cell (lit "h")] None) in
  let d := Page.mkQuotaResponse 2%float 2%float [sex; county] None in
  let d' := Page.mkQuotaResponse 2%float 2%float [county; sex] None in
  List.length (Part001.flatten d') = List.length (Part001.flatten d)
  /\ List.length (Part001.flatten d) = 3.
Proof.
  intros cell sex county d d'.
  destruct (flatten_row_count_and_order Part001.prettyKey (lit "SharePercent") d)
    as (_ & Hn & Hp & _).
  split.
  - apply Hp. apply perm_swap.
  - exact Hn.
Defined.

(** ** [prettyDim] / [prettyKey] *)

Lemma prettyWith_unknown (DIMENSIONS : list (jsstring * jsstring)) (key : jsstring) :
  ~ In key (map fst DIMENSIONS) ->
  Page.prettyWith DIMENSIONS key
  = Page.upcaseWordStarts false (Page.replaceUnderscores key).
Proof.
  intros N. unfold Page.prettyWith.
  destruct (find (fun d => jsstring_eqb (fst d) key) DIMENSIONS) as [hit|] eqn:E;
    [|reflexivity].
  apply find_some in E. destruct E as [I E]. apply jsstring_eqb_eq in E.
  exfalso. apply N. rewrite <- E. now apply in_map.
Qed.

Lemma prettyDim_catalog (key lab : jsstring) :
  In (key, lab) Part000.DIMENSIONS ->
  Part000.prettyDim key = lab /\ Part001.prettyKey key = lab.
Proof.
  intros H. unfold Part000.DIMENSIONS in H.
  repeat (destruct H as [H|H]; [injection H as <- <-; split; reflexivity|]).
  destruct H.
Qed.

(** The fallback, unit by unit: a unit is upper-cased when it is a word
    character ([A-Za-z0-9_]) that starts the string or follows a unit that is
    not one; every other unit is kept. *)
Lemma upcaseWordStarts_nth (s : jsstring) (afterWord : bool) (i : nat) (c : code_unit) :
  nth_error s i = Some c ->
  nth_error (Page.upcaseWordStarts afterWord s) i
  = Some (if Page.isWordChar c
             && negb (match i with
                      | O => afterWord
                      | S j => match nth_error s j with
                               | Some p => Page.isWordChar p
                               | None => false
                               end
                      end)
          then Page.toUpperCase c else c).
Proof.
  revert afterWord i. induction s as [|x s IH]; intros afterWord [|i] H;
    cbn [nth_error Page.upcaseWordStarts] in *; try discriminate.
  - now injection H as ->.
  - rewrite (IH _ _ H). destruct i as [|i]; reflexivity.
Qed.

Lemma field_Dimension (dimensionCell : jsstring -> jsstring) (shareKey dim : jsstring)
      (c : Page.QuotaCell) :
  Page.field (lit "Dimension") (Page.exportRow dimensionCell shareKey dim c)
  = Some (Page.VString (dimensionCell dim)).
Proof. reflexivity. Qed.

Lemma map_field_Dimension (dimensionCell : jsstring -> jsstring) (shareKey : jsstring)
      (d : Page.QuotaResponse) :
  map (Page.field (lit "Dimension")) (Page.flatten dimensionCell shareKey d)
  = flat_map (fun entry =>
                map (fun _ => Some (Page.VString (dimensionCell (fst entry))))
                  (Page.cells (snd entry)))
      (Page.results d).
Proof.
  rewrite flatten_flat_map.
  induction (Page.results d) as [|entry entries IH]; cbn [flat_map map].
  - reflexivity.
  - rewrite map_app, IH. f_equal. unfold Page.rowsOf. rewrite map_map.
    apply map_ext. intros c. apply field_Dimension.
Qed.

(** C5 (amended).  The [Dimension] cell of every exported row is the label
    of its dimension key on the pages that have labels (part_000 with
    [prettyDim], part_001 with [prettyKey]): the catalogue's label for each of
    the ten known keys, and for any other key the key with ["_"] turned into
    [" "] and the first unit of each run of word characters upper-cased.  On
    part_002, which has no labels, it is the key itself. *)
Theorem export_dimension_cell (d : Page.QuotaResponse) :
  map (Page.field (lit "Dimension")) (Part000.flatten d)
  = flat_map (fun entry =>
                map (fun _ => Some (Page.VString (Part000.prettyDim (fst entry))))
                  (Page.cells (snd entry)))
      (Page.results d)
  /\ map (Page.field (lit "Dimension")) (Part001.flatten d)
     = flat_map (fun entry =>
                   map (fun _ => Some (Page.VString (Part001.prettyKey (fst entry))))
                     (Page.cells (snd entry)))
         (Page.results d)
  /\ map (Page.field (lit "Dimension")) (Part002.flatten d)
     = flat_map (fun entry =>
                   map (fun _ => Some (Page.VString (fst entry))) (Page.cells (snd entry)))
         (Page.results d)
  /\ (forall key lab, In (key, lab) Part000.DIMENSIONS ->
        Part000.prettyDim key = lab /\ Part001.prettyKey key = lab)
  /\ (forall key, ~ In key (map fst Part000.DIMENSIONS) ->
        Part000.prettyDim key = Page.upcaseWordStarts false (Page.replaceUnderscores key)
        /\ Part001.prettyKey key = Part000.prettyDim key)
  /\ Part000.prettyDim (lit "income_band") = lit "Income Band".
Proof.
  split; [apply map_field_Dimension|].
  split; [apply map_field_Dimension|].
  split; [apply (map_field_Dimension (fun dim => dim))|].
  split; [apply prettyDim_catalog|].
  split; [|reflexivity].
  intros key N. split.
  - now apply prettyWith_unknown.
  - unfold Part001.prettyKey, Part000.prettyDim.
    rewrite !prettyWith_unknown; [reflexivity|exact N|exact N].
Qed.

Lemma export_dimension_cell_witness :
  Part000.prettyDim (lit "county") = lit "County"
  /\ Part000.prettyDim (lit "household_size")
     = Page.upcaseWordStarts false (Page.replaceUnderscores (lit "household_size")).
Proof.
  destruct (export_dimension_cell (Page.mkQuotaResponse 0%float 0%float [] None))
    as (_ & _ & _ & Hc & Hu & _).
  split.
  - apply (Hc (lit "county") (lit "County")). unfold Part000.DIMENSIONS.
    right. right. left. reflexivity.
  - apply Hu. intros H. vm_compute in H.
    repeat (destruct H as [H|H]; [discriminate|]). exact H.
Defined.

(** C5 as stated fails on part_002: the [Dimension] cell of a [county] row is
    ["county"], not the label ["County"]. *)
Lemma export_dimension_cell_counterexample :
  let cell := Page.mkCell (lit "c1") (lit "Harju") 600000%float 0.6667%float 667%float in
  let d := Page.mkQuotaResponse 900000%float 1000%float
             [(lit "county", Page.mkDimensionResult 900000%float [cell] None)] None in
  map (Page.field (lit "Dimension")) (Part002.flatten d)
  = [Some (Page.VString (lit "county"))]
  /\ Part000.prettyDim (lit "county") = lit "County"
  /\ lit "county" <> lit "County".
Proof.
  split; [reflexivity|]. split; [reflexivity|discriminate].
Qed.

(** ** [downloadExcel]: the workbook and its file name *)

Lemma flatten_keys (dimensionCell : jsstring -> jsstring) (shareKey : jsstring)
      (d : Page.QuotaResponse) :
  Forall (fun r => Page.keys r
                   = [lit "Dimension"; lit "Label"; lit "Population"; shareKey; lit "Quota"])
    (Page.flatten dimensionCell shareKey d).
Proof.
  rewrite flatten_flat_map. apply Forall_flat_map, Forall_forall.
  intros entry _. unfold Page.rowsOf. apply Forall_map, Forall_forall.
  intros c _. reflexivity.
Qed.

(** C6 (amended).  With no stored response [downloadExcel] returns at once:
    no file, no error.  With one, it writes a workbook with the single sheet
    ["Quotas"] holding the rows of [flatten], each with the keys Dimension,
    Label, Population, the share column and Quota in this order; the share
    column is ["SharePercent"] on part_001 and part_002 and ["Share %"] on
    part_000.  The file is [quota_results_<stamp>.xlsx] with the first ten
    units of the ISO time (the date) as stamp on part_000 and the first
    nineteen, [":"] and ["T"] turned into ["-"], on part_002; on part_001 it
    is always [quota_results.xlsx]. *)
Theorem downloadExcel_workbook (now : jsstring) :
  (Part000.downloadExcel None now = None
   /\ Part001.downloadExcel None now = None
   /\ Part002.downloadExcel None now = None)
  /\ forall d : Page.QuotaResponse,
      Part000.downloadExcel (Some d) now
      = Some (Page.mkDownload (lit "quota_results_" ++ firstn 10 now ++ lit ".xlsx")
                [(lit "Quotas", Page.mkSheet (Part000.flatten d))])
      /\ Part001.downloadExcel (Some d) now
         = Some (Page.mkDownload (lit "quota_results.xlsx")
                   [(lit "Quotas", Page.mkSheet (Part001.flatten d))])
      /\ Part002.downloadExcel (Some d) now
         = Some (Page.mkDownload
                   (lit "quota_results_" ++ Page.replaceColonT (firstn 19 now) ++ lit ".xlsx")
                   [(lit "Quotas", Page.mkSheet (Part002.flatten d))])
      /\ Forall (fun r => Page.keys r
                          = [lit "Dimension"; lit "Label"; lit "Population";
                             lit "Share %"; lit "Quota"])
           (Part000.flatten d)
      /\ Forall (fun r => Page.keys r
                          = [lit "Dimension"; lit "Label"; lit "Population";
                             lit "SharePercent"; lit "Quota"])
           (Part001.flatten d)
      /\ Forall (fun r => Page.keys r
                          = [lit "Dimension"; lit "Label"; lit "Population";
                             lit "SharePercent"; lit "Quota"])
           (Part002.flatten d).
Proof.
  split; [repeat split|].
  intros d. repeat split; apply flatten_keys.
Qed.

(** C6 as stated fails twice: part_001 names every export
    [quota_results.xlsx], whatever the time, and the share column of
    part_000 is ["Share %"]. *)
Lemma downloadExcel_workbook_counterexample :
  let cell := Page.mkCell (lit "c1") (lit "Harju") 600000%float 0.6667%float 667%float in
  let d := Page.mkQuotaResponse 900000%float 1000%float
             [(lit "county", Page.mkDimensionResult 900000%float [cell] None)] None in
  let monday := lit "2026-11-02T10:33:07.123Z" in
  let tuesday := lit "2026-11-03T08:00:00.000Z" in
  option_map Page.file_name (Part001.downloadExcel (Some d) monday)
  = Some (lit "quota_results.xlsx")
  /\ option_map Page.file_name (Part001.downloadExcel (Some d) tuesday)
     = Some (lit "quota_results.xlsx")
  /\ map Page.keys (Part000.flatten d)
     = [[lit "Dimension"; lit "Label"; lit "Population"; lit "Share %"; lit "Quota"]]
  /\ lit "Share %" <> lit "SharePercent".
Proof.
  repeat split. discriminate.
Qed.

(** ** [Number((share * 100).toFixed(2))] *)

Lemma Qvalue_zero (x : float) (s : bool) :
  Prim2SF x = S754_zero s -> Qvalue x = Some 0%Q.
Proof. intros H. unfold Qvalue. now rewrite H. Qed.

Lemma Qvalue_finite (x : float) (s : bool) (m : positive) (e : Z) :
  Prim2SF x = S754_finite s m e ->
  Qvalue x = Some (if s then Qopp (finiteValue m e) else finiteValue m e).
Proof. intros H. unfold Qvalue. now rewrite H. Qed.

Lemma toFixed2_zero (x : float) (s : bool) :
  Prim2SF x = S754_zero s -> toFixed2 x = FixedDecimal false 0.
Proof. intros H. unfold toFixed2. now rewrite H. Qed.

Lemma toFixed2_finite (x : float) (s : bool) (m : positive) (e : Z) :
  Prim2SF x = S754_finite s m e -> (1e21 <=? abs x)%float = false ->
  toFixed2 x = FixedDecimal s (roundHundredths m e).
Proof. intros H B. unfold toFixed2. now rewrite H, B. Qed.

Lemma roundHundredths_half_up (m : positive) (e : Z) :
  rounds_half_up_to_2dp (finiteValue m e) (roundHundredths m e).
Proof.
  unfold roundHundredths, rounds_half_up_to_2dp, finiteValue.
  destruct (Z.leb_spec 0 e) as [He|He].
  - unfold Qle, Qlt, Qminus, Qplus, Qmult, Qopp, inject_Z. cbn [Qnum Qden].
    split; lia.
  - assert (HD : (0 < 2 ^ (- e))%Z) by (apply Z.pow_pos_nonneg; lia).
    pose proof (Z.div_mod (2 * (100 * Z.pos m) + 2 ^ (- e)) (2 * 2 ^ (- e))
                  ltac:(lia)) as Hdm.
    pose proof (Z.mod_pos_bound (2 * (100 * Z.pos m) + 2 ^ (- e)) (2 * 2 ^ (- e))
                  ltac:(lia)) as Hr.
    unfold Qle, Qlt, Qminus, Qplus, Qmult, Qopp, inject_Z. cbn [Qnum Qden].
    rewrite !Pos2Z.inj_mul, !Z2Pos.id by exact HD.
    set (D := (2 ^ (- e))%Z) in *.
    set (n := ((2 * (100 * Z.pos m) + D) / (2 * D))%Z) in *.
    set (r := ((2 * (100 * Z.pos m) + D) mod (2 * D))%Z) in *.
    split; nia.
Qed.

Lemma Qabs_finite_value (s : bool) (m : positive) (e : Z) (a : Q) :
  a = finiteValue m e -> Qabs (if s then Qopp a else a) = a.
Proof.
  intros ->. unfold finiteValue. destruct (Z.leb_spec 0 e) as [He|He].
  - assert (H : (0 <= Z.pos m * 2 ^ e)%Z).
    { apply Z.mul_nonneg_nonneg; [lia|]. now apply Z.pow_nonneg. }
    destruct s; unfold Qabs, Qopp, inject_Z; cbn [Qnum Qden];
      rewrite ?Z.abs_opp, Z.abs_eq by exact H; reflexivity.
  - destruct s; reflexivity.
Qed.

Lemma map_field_share (dimensionCell : jsstring -> jsstring) (shareKey : jsstring)
      (d : Page.QuotaResponse) :
  (forall dim c,
      Page.field shareKey (Page.exportRow dimensionCell shareKey dim c)
      = Some (Page.VNumber (Page.sharePercent (Page.share c)))) ->
  map (Page.field shareKey) (Page.flatten dimensionCell shareKey d)
  = flat_map (fun entry =>
                map (fun c => Some (Page.VNumber (Page.sharePercent (Page.share c))))
                  (Page.cells (snd entry)))
      (Page.results d).
Proof.
  intros H. rewrite flatten_flat_map.
  induction (Page.results d) as [|entry entries IH]; cbn [flat_map map].
  - reflexivity.
  - rewrite map_app, IH. f_equal. unfold Page.rowsOf. rewrite map_map.
    apply map_ext. intros c. apply H.
Qed.

(** C7 (amended).  The share cell of the row of a cell with share [s] is
    [Number((s * 100).toFixed(2))], where [s * 100] is the product in
    doubles: when that product [x] is finite and below [1e21] in magnitude,
    the cell is the double nearest to [n/100], signed as [x], with [n] the
    integer nearest to [100 |x|], the larger on a tie.  Share [0.33333] gives
    [33.33] and share [0.6667] gives [66.67]. *)
Theorem sharePercent_rounds_double_product (d : Page.QuotaResponse) (share : number) :
  (map (Page.field (lit "SharePercent")) (Part001.flatten d)
   = flat_map (fun entry =>
                 map (fun c => Some (Page.VNumber (Page.sharePercent (Page.share c))))
                   (Page.cells (snd entry)))
       (Page.results d)
   /\ map (Page.field (lit "SharePercent")) (Part002.flatten d)
      = flat_map (fun entry =>
                    map (fun c => Some (Page.VNumber (Page.sharePercent (Page.share c))))
                      (Page.cells (snd entry)))
          (Page.results d)
   /\ map (Page.field (lit "Share %")) (Part000.flatten d)
      = flat_map (fun entry =>
                    map (fun c => Some (Page.VNumber (Page.sharePercent (Page.share c))))
                      (Page.cells (snd entry)))
          (Page.results d))
  /\ (let x := (share * 100)%float in
      Page.sharePercent share = Number_of_Fixed (toFixed2 x)
      /\ forall q, Qvalue x = Some q -> (1e21 <=? abs x)%float = false ->
           exists negative n,
             toFixed2 x = FixedDecimal negative n
             /\ rounds_half_up_to_2dp (Qabs q) n
             /\ Page.sharePercent share = nearestDouble negative n)
  /\ Page.sharePercent 0.33333%float = 33.33%float
  /\ Page.sharePercent 0.6667%float = 66.67%float.
Proof.
  split; [|split; [|split]].
  - split; [|split]; apply map_field_share; reflexivity.
  - intros x. split; [reflexivity|].
    intros q Hq Hbig. unfold Page.sharePercent. fold x.
    destruct (Prim2SF x) as [s|s| |s m e] eqn:E.
    + rewrite (@Qvalue_zero _ _ E) in Hq. rewrite (@toFixed2_zero _ _ E).
      assert (Eq : q = 0%Q) by congruence. subst q. exists false, 0%Z.
      split; [reflexivity|]. split; [|reflexivity].
      split; [unfold Qle|unfold Qlt]; cbn; lia.
    + unfold Qvalue in Hq. rewrite E in Hq. discriminate.
    + unfold Qvalue in Hq. rewrite E in Hq. discriminate.
    + rewrite (@Qvalue_finite _ _ _ _ E) in Hq. rewrite (@toFixed2_finite _ _ _ _ E Hbig).
      exists s, (roundHundredths m e).
      split; [reflexivity|]. split; [|reflexivity].
      assert (Eq : q = (if s then Qopp (finiteValue m e) else finiteValue m e))
        by congruence.
      subst q. rewrite (Qabs_finite_value s m e eq_refl).
      apply roundHundredths_half_up.
  - vm_compute. reflexivity.
  - vm_compute. reflexivity.
Qed.

Lemma sharePercent_rounds_double_product_witness :
  exists negative n,
    toFixed2 (0.33333 * 100)%float = FixedDecimal negative n
    /\ rounds_half_up_to_2dp (Qabs (4691202699348148 # 140737488355328)) n
    /\ Page.sharePercent 0.33333%float = nearestDouble negative n.
Proof.
  destruct (sharePercent_rounds_double_product
              (Page.mkQuotaResponse 0%float 0%float [] None) 0.33333%float)
    as (_ & (_ & H) & _).
  exact (H (4691202699348148 # 140737488355328)%Q eq_refl eq_refl).
Defined.

(** C7 as stated fails at share [0.00075]: the cell is [0.07], because the
    product in doubles is a little below [0.075].  The exact product rounds
    to [0.08] and not to [0.07], whether the share is taken as the double (a
    little above the decimal) or as the decimal itself with ties upwards. *)
Lemma sharePercent_counterexample :
  let share := 0.00075%float in
  toFixed2 (share * 100)%float = FixedDecimal false 7
  /\ Page.sharePercent share = nearestDouble false 7
  /\ (exists q, Qvalue share = Some q
                /\ ~ rounds_to_2dp (q * 100) 7 /\ rounds_to_2dp (q * 100) 8)
  /\ rounds_half_up_to_2dp ((75 # 100000) * 100) 8
  /\ nearestDouble false 7 <> nearestDouble false 8.
Proof.
  cbv zeta. split; [vm_compute; reflexivity|]. split; [vm_compute; reflexivity|].
  split; [|split].
  - eexists. split; [vm_compute; reflexivity|]. split.
    + intros H. vm_compute in H. apply H. reflexivity.
    + vm_compute. discriminate.
  - split; vm_compute; [discriminate|reflexivity].
  - intros H. apply (f_equal Prim2SF) in H. vm_compute in H. discriminate.
Qed.

(* ================================================================= *)
(** * Further properties of the code *)

(** ** [toggleDim]: order and duplicates *)

Lemma NoDup_snoc (d : jsstring) (l : list jsstring) :
  NoDup l -> ~ In d l -> NoDup (l ++ [d]).
Proof.
  induction 1 as [|x l Hx Hl IH]; intros N; simpl.
  - constructor; [intros []|constructor].
  - constructor.
    + rewrite in_app_iff. intros [I|[E|[]]]; [contradiction|].
      subst. apply N. now left.
    + apply IH. intros I. apply N. now right.
Qed.


Lemma toggle_NoDup (d : jsstring) (prev : list jsstring) :
  NoDup prev -> NoDup (Page.toggle d prev).
Proof.
  intros H. unfold Page.toggle. destruct (Page.includes d prev) eqn:E.
  - now apply NoDup_filter.
  - apply NoDup_snoc; [exact H|]. now apply includes_not_In.
Qed.



(** ** [calculate]: what it leaves alone *)

(** X2.  An invocation of [calculate] never changes a field of the form, and
    changes the selection only by appending ["sex"]: with the filter on
    [total], or with ["sex"] selected, the selection is kept as it is. *)
Theorem calculate_frame
  (env : option jsstring) (fetch : Request -> Error + Response)
  (JSON_stringify : Page.Payload -> jsstring)
  (JSON_parse : jsstring -> option Page.QuotaResponse) (s : Page.State) :
  let s' := snd (Page.calculate env fetch JSON_stringify JSON_parse s) in
  (Page.year s' = Page.year s /\ Page.ageFrom s' = Page.ageFrom s
   /\ Page.ageTo s' = Page.ageTo s /\ Page.sampleN s' = Page.sampleN s
   /\ Page.step s' = Page.step s /\ Page.sexFilter s' = Page.sexFilter s)
  /\ (Page.dims s' = Page.dims s \/ Page.dims s' = Page.dims s ++ [lit "sex"])
  /\ (Page.sexFilter s = Page.total -> Page.dims s' = Page.dims s)
  /\ (In (lit "sex") (Page.dims s) -> Page.dims s' = Page.dims s).
Proof.
  intros s'.
  destruct (calculate_dims env fetch JSON_stringify JSON_parse s) as [_ D].
  fold s' in D. split; [|split; [|split]].
  - unfold s', Page.calculate, Page.calculate_enter. cbn [snd].
    destruct (outcome _);
      destruct (Page.menOrWomen (Page.sexFilter s)
                && negb (Page.includes (lit "sex") (Page.dims s)));
      repeat split.
  - rewrite D. destruct (_ && _); [now right|now left].
  - intros E. rewrite D, E. reflexivity.
  - intros I. apply includes_In in I. rewrite D, I.
    now rewrite andb_false_r.
Qed.

Lemma calculate_frame_witness :
  let s := Page.mkState 2025%float 64%float 18%float 1000%float 10%float Page.total
             [] None None false in
  Page.dims (snd (Page.calculate None (fun _ => inl (mkError [])) (fun _ => [])
                    (fun _ => None) s)) = [].
Proof.
  intros s.
  destruct (calculate_frame None (fun _ => inl (mkError [])) (fun _ => [])
              (fun _ => None) s) as (_ & _ & H & _).
  exact (H eq_refl).
Defined.

(** X3.  With the base URL not configured (undefined or empty), an
    invocation of [calculate] sends nothing; it ends with no response
    stored, the missing-base message as error text and [loading] off. *)
Theorem calculate_without_base
  (fetch : Request -> Error + Response)
  (JSON_stringify : Page.Payload -> jsstring)
  (JSON_parse : jsstring -> option Page.QuotaResponse)
  (evs : list Page.Event) (s : Page.State) :
  let ends := fun env =>
    Page.calculate_during env fetch JSON_stringify JSON_parse evs s in
  (fst (ends None) = []
   /\ Page.data (snd (ends None)) = None
   /\ Page.err (snd (ends None)) = Some Api.missingBaseMessage
   /\ Page.loading (snd (ends None)) = false)
  /\ (fst (ends (Some [])) = []
      /\ Page.data (snd (ends (Some []))) = None
      /\ Page.err (snd (ends (Some []))) = Some Api.missingBaseMessage
      /\ Page.loading (snd (ends (Some []))) = false).
Proof.
  intros ends.
  assert (G : forall env, env = None \/ env = Some [] ->
                fst (ends env) = []
                /\ Page.data (snd (ends env)) = None
                /\ Page.err (snd (ends env)) = Some Api.missingBaseMessage
                /\ Page.loading (snd (ends env)) = false).
  { intros env He. unfold ends, Page.calculate_during. cbn [fst snd].
    assert (R : Page.calculate_call env fetch JSON_stringify JSON_parse s
                = ([], inl (mkError Api.missingBaseMessage))).
    { unfold Page.calculate_call. rewrite postJson_run.
      apply getApiBase_unset in He. now rewrite He. }
    rewrite R. cbn [requests outcome fst snd].
    destruct (handleAll_data evs (Page.flush (Page.calculate_enter s) s))
      as (Hd & _ & _).
    destruct (enter_state s) as (Ed & _).
    pose proof (settle_data (inl (mkError Api.missingBaseMessage))
                  (Page.handleAll evs (Page.flush (Page.calculate_enter s) s))) as S.
    cbv zeta in S. destruct S as (Sl & Sd & Se).
    split; [reflexivity|]. split; [|split].
    - rewrite Sd, Hd. exact Ed.
    - exact Se.
    - exact Sl. }
  split; apply G; [now left|now right].
Qed.

(** X4.  What [calculate] left out of one request is in the next: after an
    invocation with the filter on men or women, the request sent by the
    following invocation (from the new render) lists ["sex"] among its
    dimensions. *)
Theorem calculate_next_request_has_sex
  (env : option jsstring) (fetch fetch' : Request -> Error + Response)
  (JSON_stringify : Page.Payload -> jsstring)
  (JSON_parse : jsstring -> option Page.QuotaResponse)
  (c : code_unit) (b : jsstring) (s : Page.State) :
  Page.menOrWomen (Page.sexFilter s) = true ->
  let s1 := snd (Page.calculate env fetch JSON_stringify JSON_parse s) in
  fst (Page.calculate (Some (c :: b)) fetch' JSON_stringify JSON_parse s1)
  = [Api.requestTo JSON_stringify (Api.replaceTrailingSlash (c :: b))
       Page.calculatePath (Page.payload s1)]
  /\ In (lit "sex") (Page.dimensions (Page.payload s1))
  /\ Page.sex_filter (Page.payload s1) = Page.sexFilter s.
Proof.
  intros Hm s1.
  destruct (calculate_dims env fetch JSON_stringify JSON_parse s) as [F D].
  fold s1 in F, D. split; [|split].
  - unfold Page.calculate, Page.calculate_call. cbn [fst].
    rewrite postJson_run.
    rewrite (@getApiBase_set (Some (c :: b)) (c :: b) eq_refl); [reflexivity|discriminate].
  - cbn [Page.payload Page.dimensions]. rewrite D, Hm. cbn [andb].
    destruct (Page.includes (lit "sex") (Page.dims s)) eqn:E; cbn [negb].
    + now apply includes_In.
    + apply in_or_app. right. now left.
  - cbn [Page.payload Page.sex_filter]. exact F.
Qed.

Lemma calculate_next_request_has_sex_witness :
  let s := Page.mkState 2025%float 18%float 64%float 1000%float 10%float Page.women
             [lit "county"] None None false in
  let offline := fun _ : Request => inl (mkError (lit "offline")) in
  let s1 := snd (Page.calculate None offline (fun _ => []) (fun _ => None) s) in
  In (lit "sex") (Page.dimensions (Page.payload s1)).
Proof.
  intros s offline s1.
  destruct (calculate_next_request_has_sex None offline offline (fun _ => [])
              (fun _ => None) 104%N [] s eq_refl) as (_ & H & _).
  exact H.
Defined.

(** ** Form events and sessions *)

Lemma handle_dims_NoDup (ev : Page.Event) (s : Page.State) :
  NoDup (Page.dims s) -> NoDup (Page.dims (Page.flush (Page.handle ev) s)).
Proof.
  intros H. destruct ev; try exact H. cbn -[Page.toggle]. now apply toggle_NoDup.
Qed.

Lemma handleAll_dims_NoDup (evs : list Page.Event) (s : Page.State) :
  NoDup (Page.dims s) -> NoDup (Page.dims (Page.handleAll evs s)).
Proof.
  revert s. induction evs as [|ev evs IH]; intros s H.
  - exact H.
  - unfold Page.handleAll in *. cbn [fold_left]. apply IH.
    now apply handle_dims_NoDup.
Qed.

(** X5.  Changing a form field or clicking a dimension sends nothing and
    leaves the stored response, the error text and [loading] as they are: the
    tables and the error box on screen stay what they were, whatever the form
    now says. *)
Theorem form_events_keep_results (evs : list Page.Event) (s : Page.State) :
  let s' := Page.handleAll evs s in
  Page.data s' = Page.data s /\ Page.err s' = Page.err s
  /\ Page.loading s' = Page.loading s
  /\ View.showResults s' = View.showResults s
  /\ View.showError s' = View.showError s.
Proof.
  intros s'. destruct (handleAll_data evs s) as (Hd & He & Hl). fold s' in Hd, He, Hl.
  unfold View.showResults, View.showError. rewrite Hd, He, Hl. repeat split.
Qed.

Lemma step_idle (env : option jsstring) (JSON_stringify : Page.Payload -> jsstring)
      (JSON_parse : jsstring -> option Page.QuotaResponse)
      (st : Session.Step) (s : Page.State) :
  Session.idle s -> Session.idle (Session.step env JSON_stringify JSON_parse s st).
Proof.
  intros (Hn & Hl & Hx). destruct st as [ev|fetch during]; cbn [Session.step].
  - destruct (handleAll_data [ev] s) as (Hd & He & Hl').
    unfold Page.handleAll in Hd, He, Hl'. cbn [fold_left] in Hd, He, Hl'.
    split; [now apply handle_dims_NoDup|]. split; [congruence|].
    rewrite Hd, He. exact Hx.
  - unfold Page.calculate_during. cbn [snd].
    set (entered := Page.flush (Page.calculate_enter s) s).
    set (r := outcome (Page.calculate_call env fetch JSON_stringify JSON_parse s)).
    pose proof (settle_data r (Page.handleAll during entered)) as S. cbv zeta in S.
    destruct S as (Sl & S).
    destruct (settle_dims r (Page.handleAll during entered)) as (Sd & _).
    destruct (handleAll_data during entered) as (Hd & He & _).
    destruct (enter_state s) as (Ed & Ee & _ & _ & En). fold entered in Ed, Ee, En.
    split; [|split; [exact Sl|]].
    + rewrite Sd. apply handleAll_dims_NoDup. rewrite En.
      destruct (Page.menOrWomen (Page.sexFilter s)
                && negb (Page.includes (lit "sex") (Page.dims s))) eqn:C;
        [|exact Hn].
      apply NoDup_snoc; [exact Hn|].
      apply andb_true_iff in C. destruct C as [_ C].
      apply negb_true_iff in C. now apply includes_not_In.
    + destruct r as [e|js]; destruct S as (S1 & S2).
      * left. congruence.
      * right. congruence.
Qed.

Lemma run_idle (env : option jsstring) (JSON_stringify : Page.Payload -> jsstring)
      (JSON_parse : jsstring -> option Page.QuotaResponse)
      (steps : list Session.Step) (s : Page.State) :
  Session.idle s -> Session.idle (Session.run env JSON_stringify JSON_parse steps s).
Proof.
  unfold Session.run. revert s.
  induction steps as [|st steps IH]; intros s I; cbn [fold_left].
  - exact I.
  - apply IH. now apply step_idle.
Qed.

(** X6.  Through a session of form events and invocations of [calculate]
    that do not overlap, started from a state with no duplicate in the
    selection, no response, no error and [loading] off (as the initial state
    of each page is), the selection never holds a key twice, and between
    steps [loading] is off and the page never shows results and an error
    together. *)
Theorem session_invariant
  (env : option jsstring) (JSON_stringify : Page.Payload -> jsstring)
  (JSON_parse : jsstring -> option Page.QuotaResponse)
  (steps : list Session.Step) (s : Page.State) :
  NoDup (Page.dims s) -> Page.loading s = false ->
  Page.data s = None \/ Page.err s = None ->
  let s' := Session.run env JSON_stringify JSON_parse steps s in
  NoDup (Page.dims s')
  /\ View.calculateDisabled s' = false
  /\ View.showResults s' && View.showError s' = false.
Proof.
  intros Hn Hl Hx s'.
  assert (I : Session.idle s')
    by (apply run_idle; repeat split; assumption).
  destruct I as (In' & Il & Ix). split; [exact In'|]. split; [exact Il|].
  unfold View.showResults, View.showError.
  destruct Ix as [-> | ->]; [reflexivity|]. now destruct (Page.data s').
Qed.

Lemma session_invariant_witness :
  let down := fun _ : Request => inr (mkResponse 503 (lit "down")) in
  let steps := [Session.Form (Page.ChangeSexFilter Page.men);
                Session.Form (Page.ClickDimension (lit "sex"));
                Session.Invocation down [Page.ClickDimension (lit "sex")];
                Session.Invocation down []] in
  let s' := Session.run (Some (lit "https://api.test")) (fun _ => []) (fun _ => None)
              steps Part002.initial in
  NoDup (Page.dims s')
  /\ View.showResults s' && View.showError s' = false.
Proof.
  intros down steps s'.
  assert (N : NoDup (Page.dims Part002.initial)).
  { repeat (constructor; [intros H; vm_compute in H;
                          repeat (destruct H as [H|H]; [discriminate|]); exact H|]).
    constructor. }
  destruct (session_invariant (Some (lit "https://api.test")) (fun _ => [])
              (fun _ => None) steps Part002.initial N eq_refl (or_introl eq_refl))
    as (H1 & _ & H2).
  split; [exact H1|exact H2].
Defined.

(** ** [postJson] and [getApiBase]: sizes and edges *)

Lemma String_of_N_short (n : N) : (n < 1000)%N -> List.length (String_of_N n) <= 3.
Proof.
  intros H.
  assert (A : forallb (fun k => List.length (String_of_N (N.of_nat k)) <=? 3)
                (seq 0 1000) = true) by (vm_compute; reflexivity).
  rewrite forallb_forall in A.
  specialize (A (N.to_nat n)). rewrite N2Nat.id in A.
  apply Nat.leb_le, A, in_seq. lia.
Qed.

Lemma slice0_short (n : nat) (s : jsstring) : List.length s <= n -> slice0 n s = s.
Proof. intros H. unfold slice0. now apply firstn_all2. Qed.

(** X7.  Whatever the service answers, the message of an error [postJson]
    throws on a response with a status below 1000 has at most 523 units; and
    when the body of a non-2xx response has at most 500 units the message is
    ["API <status>: "] followed by the whole body. *)
Theorem postJson_error_text_bounded
  (env : option jsstring) (fetch : Request -> Error + Response) (P T : Type)
  (JSON_stringify : P -> jsstring) (JSON_parse : jsstring -> option T)
  (path : jsstring) (payload : P) (base : jsstring) (res : Response) (e : Error) :
  env = Some base -> base <> [] ->
  fetch (Api.requestTo JSON_stringify (Api.replaceTrailingSlash base) path payload)
  = inr res ->
  (status res < 1000)%N ->
  outcome (Api.postJson env fetch JSON_stringify JSON_parse path payload) = inl e ->
  List.length (message e) <= 523
  /\ (ok res = false -> List.length (text res) <= 500 ->
      message e = lit "API " ++ String_of_N (status res) ++ lit ": " ++ text res).
Proof.
  intros He Hb Hf Hs Ho.
  rewrite postJson_run, (getApiBase_set He Hb) in Ho.
  unfold outcome in Ho. cbn [snd] in Ho. rewrite Hf in Ho. unfold Api.classify in Ho.
  pose proof (String_of_N_short Hs) as Hd.
  pose proof (slice0_length 500 (text res)) as Hl.
  destruct (ok res); cbn [negb] in Ho.
  - split; [|discriminate].
    destruct (forallb isTrimmable (text res)).
    + injection Ho as <-. cbn. lia.
    + destruct (JSON_parse (text res)); [discriminate|].
      injection Ho as <-. cbn [message]. unfold Api.nonJsonMessage.
      rewrite length_app. change (List.length (lit "API returned non-JSON: ")) with 23.
      lia.
  - injection Ho as <-. cbn [message]. unfold Api.statusMessage. split.
    + rewrite !length_app. change (List.length (lit "API ")) with 4.
      change (List.length (lit ": ")) with 2. lia.
    + intros _ Hlen. now rewrite (@slice0_short 500 (text res) Hlen).
Qed.

Lemma postJson_error_text_bounded_witness :
  exists e,
    outcome (Api.postJson (Some (lit "https://api.test"))
               (fun _ => inr (mkResponse 500 (lit "server exploded")))
               (fun _ : unit => []) (fun _ => @None unit) (lit "/v1") tt) = inl e
    /\ List.length (message e) <= 523
    /\ message e = lit "API 500: server exploded".
Proof.
  eexists. split; [reflexivity|].
  destruct (@postJson_error_text_bounded (Some (lit "https://api.test"))
              (fun _ => inr (mkResponse 500 (lit "server exploded")))
              unit unit (fun _ => []) (fun _ => None) (lit "/v1") tt
              (lit "https://api.test") (mkResponse 500 (lit "server exploded"))
              (mkError (lit "API 500: server exploded"))
              eq_refl ltac:(discriminate) eq_refl eq_refl eq_refl) as (H1 & H2).
  split; [exact H1|]. apply H2; [reflexivity|]. cbn. lia.
Defined.

(** X8.  Unless the configured base ends in two slashes, what [getApiBase]
    returns does not end in a slash, so a path that starts with one is
    joined to it by exactly that slash. *)
Theorem getApiBase_no_trailing_slash (base : jsstring) :
  base <> [] -> (forall r, base <> r ++ [47%N; 47%N]) ->
  exists b, Api.getApiBase (Some base) = inr b /\ forall r, b <> r ++ [47%N].
Proof.
  intros Hb H2. exists (Api.replaceTrailingSlash base).
  split; [now apply getApiBase_set|].
  destruct (ends_with_slash_dec base) as [[r ->]|H].
  - rewrite replaceTrailingSlash_snoc_slash. intros r' ->.
    apply (H2 r'). now rewrite <- app_assoc.
  - now rewrite (replaceTrailingSlash_other H).
Qed.

Lemma getApiBase_no_trailing_slash_witness :
  exists b, Api.getApiBase (Some (lit "https://api.test/")) = inr b
            /\ forall r, b <> r ++ [47%N].
Proof.
  apply getApiBase_no_trailing_slash; [discriminate|].
  intros r E. apply (f_equal (@rev _)) in E. rewrite rev_app_distr in E.
  vm_compute in E. discriminate.
Defined.

(** X9.  The page's Backend line and [getApiBase] disagree on exactly one
    configuration, the empty string: there every request fails with the
    missing-base error while the page does not show its missing notice. *)
Theorem backend_label_disagrees_on_empty (env : option jsstring) :
  (Api.getApiBase env = inl (mkError Api.missingBaseMessage)
   /\ View.backendLabel env <> View.missingNotice)
  <-> env = Some [].
Proof.
  split.
  - intros [G L]. apply getApiBase_unset in G. destruct G as [-> | ->].
    + now destruct L.
    + reflexivity.
  - intros ->. split; [reflexivity|discriminate].
Qed.

(** ** [prettyDim] / [prettyKey]: the fallback rule *)

Lemma lower_case_bounds (c : code_unit) :
  ((97 <=? c)%N && (c <=? 122)%N) = true <-> (97 <= c <= 122)%N.
Proof. rewrite andb_true_iff, !N.leb_le. tauto. Qed.

Lemma toUpperCase_word (c : code_unit) :
  Page.isWordChar (Page.toUpperCase c) = Page.isWordChar c.
Proof.
  unfold Page.toUpperCase. destruct ((97 <=? c)%N && (c <=? 122)%N) eqn:E;
    [|reflexivity].
  unfold Page.isWordChar. rewrite E. apply lower_case_bounds in E.
  replace ((65 <=? c - 32)%N && (c - 32 <=? 90)%N) with true.
  - now rewrite orb_true_r.
  - symmetry. rewrite andb_true_iff, !N.leb_le. lia.
Qed.

Lemma toUpperCase_twice (c : code_unit) :
  Page.toUpperCase (Page.toUpperCase c) = Page.toUpperCase c.
Proof.
  unfold Page.toUpperCase at 2 3. destruct ((97 <=? c)%N && (c <=? 122)%N) eqn:E;
    unfold Page.toUpperCase.
  - apply lower_case_bounds in E.
    replace ((97 <=? c - 32)%N && (c - 32 <=? 122)%N) with false; [reflexivity|].
    symmetry. apply andb_false_iff. left. apply N.leb_gt. lia.
  - now rewrite E.
Qed.

Lemma toUpperCase_underscore (c : code_unit) :
  Page.toUpperCase c = 95%N -> c = 95%N.
Proof.
  unfold Page.toUpperCase. destruct ((97 <=? c)%N && (c <=? 122)%N) eqn:E;
    [|tauto].
  apply lower_case_bounds in E. lia.
Qed.

Lemma upcaseWordStarts_length (afterWord : bool) (s : jsstring) :
  List.length (Page.upcaseWordStarts afterWord s) = List.length s.
Proof.
  revert afterWord. induction s as [|c s IH]; intros afterWord; simpl.
  - reflexivity.
  - now rewrite IH.
Qed.

Lemma upcaseWordStarts_In (afterWord : bool) (s : jsstring) (c : code_unit) :
  In c (Page.upcaseWordStarts afterWord s) ->
  exists c0, In c0 s /\ (c = c0 \/ c = Page.toUpperCase c0).
Proof.
  revert afterWord. induction s as [|x s IH]; intros afterWord; simpl.
  - intros [].
  - intros [E|I].
    + exists x. split; [now left|].
      destruct (Page.isWordChar x && negb afterWord); [now right|now left].
    + destruct (IH _ I) as (c0 & I0 & E). exists c0. split; [now right|exact E].
Qed.

Lemma upcaseWordStarts_twice (afterWord : bool) (s : jsstring) :
  Page.upcaseWordStarts afterWord (Page.upcaseWordStarts afterWord s)
  = Page.upcaseWordStarts afterWord s.
Proof.
  revert afterWord. induction s as [|c s IH]; intros afterWord; simpl.
  - reflexivity.
  - destruct (Page.isWordChar c && negb afterWord) eqn:E.
    + rewrite toUpperCase_word, E, toUpperCase_twice, IH. reflexivity.
    + rewrite E, IH. reflexivity.
Qed.

Lemma replaceUnderscores_none (s : jsstring) :
  ~ In 95%N s -> Page.replaceUnderscores s = s.
Proof.
  induction s as [|c s IH]; intros N; simpl.
  - reflexivity.
  - rewrite IH by (intros I; apply N; now right).
    unfold code_unit_eqb. destruct (N.eqb_spec c 95) as [->|_]; [|reflexivity].
    exfalso. apply N. now left.
Qed.

Lemma replaceUnderscores_In (s : jsstring) : ~ In 95%N (Page.replaceUnderscores s).
Proof.
  unfold Page.replaceUnderscores. rewrite in_map_iff. intros (c & E & _).
  unfold code_unit_eqb in E. destruct (N.eqb_spec c 95); [discriminate|congruence].
Qed.

Lemma fallback_no_underscore (s : jsstring) :
  ~ In 95%N (Page.upcaseWordStarts false (Page.replaceUnderscores s)).
Proof.
  intros I. apply upcaseWordStarts_In in I. destruct I as (c0 & I0 & [E|E]).
  - subst. now apply (replaceUnderscores_In s).
  - symmetry in E. apply toUpperCase_underscore in E. subst.
    now apply (replaceUnderscores_In s).
Qed.

(** X10.  The labels of the catalogue are what the fallback rule gives for
    their keys, so on every key [prettyDim] (and [prettyKey]) is the fallback
    rule: underscores to spaces, word starts upper-cased.  The label has the
    length of the key and no underscore, and labelling a label changes
    nothing. *)
Theorem prettyDim_is_fallback (key : jsstring) :
  Part000.prettyDim key = Page.upcaseWordStarts false (Page.replaceUnderscores key)
  /\ Part001.prettyKey key = Part000.prettyDim key
  /\ List.length (Part000.prettyDim key) = List.length key
  /\ ~ In 95%N (Part000.prettyDim key)
  /\ Part000.prettyDim (Part000.prettyDim key) = Part000.prettyDim key.
Proof.
  assert (G : forall k, Part000.prettyDim k
                        = Page.upcaseWordStarts false (Page.replaceUnderscores k)).
  { intros k. destruct (in_dec jsstring_eq_dec k (map fst Part000.DIMENSIONS)) as [I|N].
    - unfold Part000.DIMENSIONS in I. cbn [map fst] in I.
      repeat (destruct I as [<-|I]; [reflexivity|]). destruct I.
    - now apply prettyWith_unknown. }
  pose proof (G key) as F.
  split; [exact F|]. split; [reflexivity|]. split; [|split].
  - rewrite F, upcaseWordStarts_length. unfold Page.replaceUnderscores.
    apply length_map.
  - rewrite F. apply fallback_no_underscore.
  - rewrite (G (Part000.prettyDim key)), F.
    rewrite (@replaceUnderscores_none _ (@fallback_no_underscore key)).
    apply upcaseWordStarts_twice.
Qed.

(** ** [downloadExcel]: what else the rows and the file name show *)

Lemma flat_map_map {A B C} (f : B -> C) (g : A -> list B) (l : list A) :
  map f (flat_map g l) = flat_map (fun a => map f (g a)) l.
Proof.
  induction l as [|a l IH]; simpl.
  - reflexivity.
  - now rewrite map_app, IH.
Qed.

Lemma map_copied (dimensionCell : jsstring -> jsstring) (shareKey : jsstring)
      (d : Page.QuotaResponse) :
  (forall dim c, copied (Page.exportRow dimensionCell shareKey dim c) = copiedFrom c) ->
  map copied (Page.flatten dimensionCell shareKey d)
  = flat_map (fun entry => map copiedFrom (Page.cells (snd entry))) (Page.results d).
Proof.
  intros H. rewrite flatten_flat_map, flat_map_map. apply flat_map_ext.
  intros entry. unfold Page.rowsOf. rewrite map_map. apply map_ext. intros c. apply H.
Qed.

(** X11.  On the three pages the Label, Population and Quota cells of the
    exported rows are the [label], [pop] and [quota] of the cells of the
    response, unchanged and in order. *)
Theorem export_copies_label_pop_quota (d : Page.QuotaResponse) :
  map copied (Part000.flatten d)
  = flat_map (fun entry => map copiedFrom (Page.cells (snd entry))) (Page.results d)
  /\ map copied (Part001.flatten d)
     = flat_map (fun entry => map copiedFrom (Page.cells (snd entry))) (Page.results d)
  /\ map copied (Part002.flatten d)
     = flat_map (fun entry => map copiedFrom (Page.cells (snd entry))) (Page.results d).
Proof.
  split; [|split]; apply map_copied; reflexivity.
Qed.

(** X12.  The rows of a response are the rows of a first part of [results]
    followed by those of the rest, and a dimension without cells adds none.
    A response in which no dimension has a cell is still exported: the file
    is written, with a sheet that has no row. *)
Theorem flatten_append_and_empty
  (dimensionCell : jsstring -> jsstring) (shareKey : jsstring)
  (fileName : jsstring -> jsstring) (d : Page.QuotaResponse) (now : jsstring) :
  let only := fun entries =>
    Page.mkQuotaResponse (Page.population_total d) (Page.response_sample_n d)
      entries (Page.meta_errors d) in
  (forall first rest, Page.results d = first ++ rest ->
     Page.flatten dimensionCell shareKey d
     = Page.flatten dimensionCell shareKey (only first)
       ++ Page.flatten dimensionCell shareKey (only rest))
  /\ Page.flatten dimensionCell shareKey d
     = Page.flatten dimensionCell shareKey
         (only (filter (fun entry => match Page.cells (snd entry) with
                                     | [] => false
                                     | _ :: _ => true
                                     end) (Page.results d)))
  /\ ((forall entry, In entry (Page.results d) -> Page.cells (snd entry) = []) ->
      Page.downloadExcel dimensionCell shareKey fileName (Some d) now
      = Some (Page.mkDownload (fileName now) [(lit "Quotas", Page.mkSheet [])])).
Proof.
  intros only. split; [|split].
  - intros first rest E. rewrite !flatten_flat_map. cbn [only Page.results].
    rewrite E. apply flat_map_app.
  - rewrite !flatten_flat_map. cbn [only Page.results].
    induction (Page.results d) as [|entry entries IH]; cbn [filter flat_map].
    + reflexivity.
    + unfold Page.rowsOf at 1. destruct (Page.cells (snd entry)) eqn:E.
      * exact IH.
      * cbn [flat_map]. unfold Page.rowsOf at 2. rewrite E, <- IH. reflexivity.
  - intros H. unfold Page.downloadExcel. rewrite flatten_flat_map.
    replace (flat_map (Page.rowsOf dimensionCell shareKey) (Page.results d))
      with (@nil Page.Row); [reflexivity|].
    symmetry. induction (Page.results d) as [|entry entries IH]; cbn [flat_map].
    + reflexivity.
    + unfold Page.rowsOf at 1. rewrite (H entry) by now left.
      apply IH. intros e I. apply H. now right.
Qed.

Lemma flatten_append_and_empty_witness :
  let d := Page.mkQuotaResponse 0%float 1000%float
             [(lit "sex", Page.mkDimensionResult 0%float [] None)]
             (Some [(lit "county", lit "timeout")]) in
  Part002.downloadExcel (Some d) (lit "2026-11-02T10:33:07.123Z")
  = Some (Page.mkDownload (lit "quota_results_2026-11-02-10-33-07.xlsx")
            [(lit "Quotas", Page.mkSheet [])]).
Proof.
  intros d.
  destruct (flatten_append_and_empty (fun dim => dim) (lit "SharePercent")
              Part002.fileName d (lit "2026-11-02T10:33:07.123Z")) as (_ & _ & H).
  apply H. intros entry [<-|[]]. reflexivity.
Defined.

Lemma replaceColonT_digit (c : code_unit) :
  isDigit c = true -> (if code_unit_eqb c 58%N || code_unit_eqb c 84%N then 45%N else c) = c.
Proof.
  unfold isDigit, code_unit_eqb. intros H. apply andb_true_iff in H.
  destruct H as [H1 H2]. apply N.leb_le in H1, H2.
  destruct (N.eqb_spec c 58); [lia|]. destruct (N.eqb_spec c 84); [lia|]. reflexivity.
Qed.

Lemma replaceColonT_template (t a b : jsstring) :
  matchesTemplate t a = true -> matchesTemplate t b = true ->
  Page.replaceColonT (firstn (List.length t) a)
  = Page.replaceColonT (firstn (List.length t) b) ->
  firstn (List.length t) a = firstn (List.length t) b.
Proof.
  revert a b. induction t as [|p t IH]; intros a b Ha Hb E.
  - reflexivity.
  - destruct a as [|c a]; [discriminate|]. destruct b as [|c' b]; [discriminate|].
    cbn [matchesTemplate] in Ha, Hb.
    apply andb_true_iff in Ha, Hb. destruct Ha as [Hc Ha], Hb as [Hc' Hb].
    cbn [List.length firstn Page.replaceColonT map] in *.
    injection E as E0 E. f_equal.
    + destruct (code_unit_eqb p 100%N).
      * rewrite (@replaceColonT_digit c Hc), (@replaceColonT_digit c' Hc') in E0.
        exact E0.
      * apply N.eqb_eq in Hc, Hc'. congruence.
    + apply IH; [exact Ha|exact Hb|exact E].
Qed.

(** X13.  File names and time.  On part_002, for times shaped
    [YYYY-MM-DDTHH:mm:ss...], two exports get the same file name exactly
    when their times agree up to the second, and the name never holds a
    colon.  On part_000 two exports get the same name exactly when the first
    ten units of their times (the date) agree. *)
Theorem fileName_by_time (a b : jsstring) :
  (isoShaped a = true -> isoShaped b = true ->
   (Part002.fileName a = Part002.fileName b <-> firstn 19 a = firstn 19 b))
  /\ ~ In 58%N (Part002.fileName a)
  /\ (Part000.fileName a = Part000.fileName b <-> firstn 10 a = firstn 10 b).
Proof.
  split; [|split].
  - intros Ha Hb. unfold Part002.fileName, slice0. split.
    + intros E. apply app_inv_head, app_inv_tail in E.
      now apply (replaceColonT_template isoTemplate a b).
    + intros ->. reflexivity.
  - unfold Part002.fileName. rewrite !in_app_iff. intros [I|[I|I]].
    + vm_compute in I. repeat (destruct I as [I|I]; [discriminate|]). exact I.
    + unfold Page.replaceColonT in I. apply in_map_iff in I.
      destruct I as (c & E & _). unfold code_unit_eqb in E.
      destruct (N.eqb_spec c 58); [discriminate|].
      destruct (N.eqb c 84); cbn [orb] in E; [discriminate|congruence].
    + vm_compute in I. repeat (destruct I as [I|I]; [discriminate|]). exact I.
  - unfold Part000.fileName, slice0. split.
    + intros E. now apply app_inv_head, app_inv_tail in E.
    + intros ->. reflexivity.
Qed.

Lemma fileName_by_time_witness :
  let a := lit "2026-11-02T10:33:07.123Z" in
  let b := lit "2026-11-02T10:33:07.950Z" in
  let c := lit "2026-11-02T10:33:08.000Z" in
  Part002.fileName a = Part002.fileName b
  /\ Part002.fileName a <> Part002.fileName c
  /\ Part000.fileName a = Part000.fileName c.
Proof.
  intros a b c.
  destruct (fileName_by_time a b) as (Hab & _ & _).
  destruct (fileName_by_time a c) as (Hac & _ & Hd).
  split; [|split].
  - apply (Hab eq_refl eq_refl). reflexivity.
  - intros E. apply (Hac eq_refl eq_refl) in E. vm_compute in E. discriminate.
  - apply Hd. reflexivity.
Defined.

(** ** [Number(x.toFixed(2))]: the values it produces *)

Lemma fixedEqb_eq (f g : Fixed) : fixedEqb f g = true -> f = g.
Proof.
  destruct f as [|x|s n], g as [|y|s' n']; try discriminate. cbn.
  intros H. apply andb_true_iff in H. destruct H as [H1 H2].
  apply Bool.eqb_prop in H1. apply Z.eqb_eq in H2. congruence.
Qed.

(** X14.  Every percentage with two decimals from 0.00 to 100.00, once read
    as a double, prints with [toFixed(2)] as itself: rounding an exported
    share again changes nothing. *)
Theorem toFixed2_reads_back (n : Z) :
  (0 <= n <= 10000)%Z ->
  toFixed2 (nearestDouble false n) = FixedDecimal false n
  /\ Number_of_Fixed (toFixed2 (nearestDouble false n)) = nearestDouble false n.
Proof.
  intros H.
  assert (A : forallb (fun k => fixedEqb (toFixed2 (nearestDouble false (Z.of_nat k)))
                                  (FixedDecimal false (Z.of_nat k)))
                (seq 0 (Z.to_nat 10001)) = true) by (vm_compute; reflexivity).
  rewrite forallb_forall in A. specialize (A (Z.to_nat n)).
  rewrite Z2Nat.id in A by lia.
  assert (E : toFixed2 (nearestDouble false n) = FixedDecimal false n).
  { apply fixedEqb_eq, A, in_seq. lia. }
  split; [exact E|]. now rewrite E.
Qed.

Lemma toFixed2_reads_back_witness :
  toFixed2 (nearestDouble false 3333) = FixedDecimal false 3333.
Proof.
  apply (@toFixed2_reads_back 3333%Z). lia.
Defined.
